(** * Face enrolment view (src/UI/src/views/Faces/Add.vue)

    A shallow embedding of the script block of the [Add.vue] component: the
    reactive state, the promise continuations of every [invoke] call site,
    the self-rescheduling [streamLoop], and the rendering conditions of the
    template's controls.  Each definition carries the name of the source
    binding it embeds. *)

From Stdlib Require Import Bool List String Ascii Arith ZArith.
From Stdlib Require Import QArith Qround Lia.
Import ListNotations.
Close Scope Q_scope.
Local Open Scope string_scope.

(** ** JavaScript values used by the component *)

(** *** Numbers

    A JavaScript number is a binary64 value.  The three special values are
    kept apart; a finite value is carried by the rational it denotes (the
    sign of zero is not tracked).  The rounding of an exact result to the
    nearest binary64 is the parameter [round] of the arithmetic below. *)
Module JsNum.
Local Open Scope Q_scope.

Inductive number : Type :=
| NaN
| PosInf
| NegInf
| Fin (q : Q).

Definition of_Z (z : Z) : number := Fin (inject_Z z).

Definition Qltb (a b : Q) : bool := negb (Qle_bool b a).

(** [a < b] of JavaScript: false as soon as one side is [NaN]. *)
Definition lt (a b : number) : bool :=
  match a, b with
  | NaN, _ | _, NaN => false
  | _, NegInf => false
  | NegInf, _ => true
  | PosInf, _ => false
  | Fin _, PosInf => true
  | Fin x, Fin y => Qltb x y
  end.

(** [a > b] of JavaScript. *)
Definition gt (a b : number) : bool := lt b a.

(** [Math.min(a, b)] and [Math.max(a, b)]: [NaN] if one argument is. *)
Definition min (a b : number) : number :=
  match a, b with
  | NaN, _ | _, NaN => NaN
  | _, _ => if lt b a then b else a
  end.

Definition max (a b : number) : number :=
  match a, b with
  | NaN, _ | _, NaN => NaN
  | _, _ => if lt a b then b else a
  end.

(** [Math.floor(a)]: the special values are returned as they are. *)
Definition floor (a : number) : number :=
  match a with
  | Fin q => of_Z (Qfloor q)
  | _ => a
  end.

Definition sign_inf (positive : bool) : number :=
  if positive then PosInf else NegInf.

(** The value order on numbers other than [NaN]. *)
Definition le (a b : number) : Prop :=
  match a, b with
  | NaN, _ | _, NaN => False
  | NegInf, _ => True
  | _, NegInf => False
  | _, PosInf => True
  | PosInf, _ => False
  | Fin x, Fin y => (x <= y)%Q
  end.

(** Rounding to binary64: what the component's arithmetic relies on.  The
    result depends on the value rounded only, rounding is monotone, and the
    constants of the source are representable. *)
Class Rounding : Type := {
  round : Q -> number;
  round_value : forall x y, (x == y)%Q -> round x = round y;
  round_mono : forall x y, (x <= y)%Q -> le (round x) (round y);
  round_100 : round (inject_Z 100) = of_Z 100
}.

(** A finite value is representable when rounding leaves it as it is. *)
Definition representable `{Rounding} (a : number) : Prop :=
  match a with
  | Fin q => round q = Fin q
  | _ => True
  end.

Section Arithmetic.
Context `{Rounding}.

(** [a * b] of JavaScript. *)
Definition mul (a b : number) : number :=
  match a, b with
  | NaN, _ | _, NaN => NaN
  | Fin x, Fin y => round (x * y)
  | Fin x, PosInf | PosInf, Fin x =>
      if Qeq_bool x 0 then NaN else sign_inf (Qltb 0 x)
  | Fin x, NegInf | NegInf, Fin x =>
      if Qeq_bool x 0 then NaN else sign_inf (Qltb x 0)
  | PosInf, PosInf | NegInf, NegInf => PosInf
  | PosInf, NegInf | NegInf, PosInf => NegInf
  end.

(** [a / b] of JavaScript (a zero divisor is read as [+0]). *)
Definition div (a b : number) : number :=
  match a, b with
  | NaN, _ | _, NaN => NaN
  | Fin x, Fin y =>
      if Qeq_bool y 0
      then (if Qeq_bool x 0 then NaN else sign_inf (Qltb 0 x))
      else round (x / y)
  | Fin _, _ => Fin 0
  | PosInf, Fin y => sign_inf (Qle_bool 0 y)
  | NegInf, Fin y => sign_inf (Qltb y 0)
  | _, _ => NaN
  end.

End Arithmetic.

End JsNum.


(** *** Strings *)
Module JsStr.

(** Truthiness of a string: every string but the empty one. *)
Definition truthy (s : string) : bool := negb (String.eqb s "").

(** [s.includes(pat)]. *)
Fixpoint includes (s pat : string) : bool :=
  if String.prefix pat s then true
  else match s with
       | EmptyString => false
       | String _ s' => includes s' pat
       end.

(** [s.split(sep)] for a one-character separator. *)
Fixpoint split (sep : ascii) (s : string) : list string :=
  match s with
  | EmptyString => [""]
  | String ch s' =>
      if Ascii.eqb ch sep then "" :: split sep s'
      else match split sep s' with
           | [] => [String ch ""]
           | piece :: pieces => String ch piece :: pieces
           end
  end.

(** [s.split(',')[1]]: [None] stands for [undefined]. *)
Definition after_comma (s : string) : option string :=
  nth_error (split "," s) 1.

(** [a || b] on strings. *)
Definition or_else (a b : string) : string := if truthy a then a else b.

End JsStr.

(** ** The component *)
Module FaceAdd.
Import JsNum JsStr.

(** *** Reactive state of the script block *)

Record AuthForm : Type := {
  accountType : string;
  username : string;
  password : string
}.

Record State : Type := {
  faceName : string;
  threshold : number;
  capturedImage : string;
  rawImageForSystem : string;
  isCameraStreaming : bool;
  isLoopRunning : bool;
  verificationMode : bool;
  verifyingStreamImage : string;
  matchConfidence : number;
  isProcessing : bool;
  authForm : AuthForm
}.

Definition initial_state : State := {|
  faceName := "";
  threshold := of_Z 50;
  capturedImage := "";
  rawImageForSystem := "";
  isCameraStreaming := false;
  isLoopRunning := false;
  verificationMode := false;
  verifyingStreamImage := "";
  matchConfidence := of_Z 0;
  isProcessing := false;
  authForm := {| accountType := "local"; username := ""; password := "" |}
|}.

(** Assignments to the bindings. *)
Definition set_faceName (v : string) (s : State) : State :=
  {| faceName := v; threshold := threshold s;
     capturedImage := capturedImage s;
     rawImageForSystem := rawImageForSystem s;
     isCameraStreaming := isCameraStreaming s;
     isLoopRunning := isLoopRunning s;
     verificationMode := verificationMode s;
     verifyingStreamImage := verifyingStreamImage s;
     matchConfidence := matchConfidence s;
     isProcessing := isProcessing s; authForm := authForm s |}.

Definition set_threshold (v : number) (s : State) : State :=
  {| faceName := faceName s; threshold := v;
     capturedImage := capturedImage s;
     rawImageForSystem := rawImageForSystem s;
     isCameraStreaming := isCameraStreaming s;
     isLoopRunning := isLoopRunning s;
     verificationMode := verificationMode s;
     verifyingStreamImage := verifyingStreamImage s;
     matchConfidence := matchConfidence s;
     isProcessing := isProcessing s; authForm := authForm s |}.

Definition set_capturedImage (v : string) (s : State) : State :=
  {| faceName := faceName s; threshold := threshold s;
     capturedImage := v;
     rawImageForSystem := rawImageForSystem s;
     isCameraStreaming := isCameraStreaming s;
     isLoopRunning := isLoopRunning s;
     verificationMode := verificationMode s;
     verifyingStreamImage := verifyingStreamImage s;
     matchConfidence := matchConfidence s;
     isProcessing := isProcessing s; authForm := authForm s |}.

Definition set_rawImageForSystem (v : string) (s : State) : State :=
  {| faceName := faceName s; threshold := threshold s;
     capturedImage := capturedImage s;
     rawImageForSystem := v;
     isCameraStreaming := isCameraStreaming s;
     isLoopRunning := isLoopRunning s;
     verificationMode := verificationMode s;
     verifyingStreamImage := verifyingStreamImage s;
     matchConfidence := matchConfidence s;
     isProcessing := isProcessing s; authForm := authForm s |}.

Definition set_isCameraStreaming (v : bool) (s : State) : State :=
  {| faceName := faceName s; threshold := threshold s;
     capturedImage := capturedImage s;
     rawImageForSystem := rawImageForSystem s;
     isCameraStreaming := v;
     isLoopRunning := isLoopRunning s;
     verificationMode := verificationMode s;
     verifyingStreamImage := verifyingStreamImage s;
     matchConfidence := matchConfidence s;
     isProcessing := isProcessing s; authForm := authForm s |}.

Definition set_isLoopRunning (v : bool) (s : State) : State :=
  {| faceName := faceName s; threshold := threshold s;
     capturedImage := capturedImage s;
     rawImageForSystem := rawImageForSystem s;
     isCameraStreaming := isCameraStreaming s;
     isLoopRunning := v;
     verificationMode := verificationMode s;
     verifyingStreamImage := verifyingStreamImage s;
     matchConfidence := matchConfidence s;
     isProcessing := isProcessing s; authForm := authForm s |}.

Definition set_verificationMode (v : bool) (s : State) : State :=
  {| faceName := faceName s; threshold := threshold s;
     capturedImage := capturedImage s;
     rawImageForSystem := rawImageForSystem s;
     isCameraStreaming := isCameraStreaming s;
     isLoopRunning := isLoopRunning s;
     verificationMode := v;
     verifyingStreamImage := verifyingStreamImage s;
     matchConfidence := matchConfidence s;
     isProcessing := isProcessing s; authForm := authForm s |}.

Definition set_verifyingStreamImage (v : string) (s : State) : State :=
  {| faceName := faceName s; threshold := threshold s;
     capturedImage := capturedImage s;
     rawImageForSystem := rawImageForSystem s;
     isCameraStreaming := isCameraStreaming s;
     isLoopRunning := isLoopRunning s;
     verificationMode := verificationMode s;
     verifyingStreamImage := v;
     matchConfidence := matchConfidence s;
     isProcessing := isProcessing s; authForm := authForm s |}.

Definition set_matchConfidence (v : number) (s : State) : State :=
  {| faceName := faceName s; threshold := threshold s;
     capturedImage := capturedImage s;
     rawImageForSystem := rawImageForSystem s;
     isCameraStreaming := isCameraStreaming s;
     isLoopRunning := isLoopRunning s;
     verificationMode := verificationMode s;
     verifyingStreamImage := verifyingStreamImage s;
     matchConfidence := v;
     isProcessing := isProcessing s; authForm := authForm s |}.

Definition set_isProcessing (v : bool) (s : State) : State :=
  {| faceName := faceName s; threshold := threshold s;
     capturedImage := capturedImage s;
     rawImageForSystem := rawImageForSystem s;
     isCameraStreaming := isCameraStreaming s;
     isLoopRunning := isLoopRunning s;
     verificationMode := verificationMode s;
     verifyingStreamImage := verifyingStreamImage s;
     matchConfidence := matchConfidence s;
     isProcessing := v; authForm := authForm s |}.

Definition set_authForm (v : AuthForm) (s : State) : State :=
  {| faceName := faceName s; threshold := threshold s;
     capturedImage := capturedImage s;
     rawImageForSystem := rawImageForSystem s;
     isCameraStreaming := isCameraStreaming s;
     isLoopRunning := isLoopRunning s;
     verificationMode := verificationMode s;
     verifyingStreamImage := verifyingStreamImage s;
     matchConfidence := matchConfidence s;
     isProcessing := isProcessing s; authForm := v |}.

Definition set_username (v : string) (a : AuthForm) : AuthForm :=
  {| accountType := accountType a; username := v; password := password a |}.

(** *** The backend and the host

    [invoke(command, args)] sends a command to the backend and returns a
    promise; the backend is outside the component. *)
Inductive Command : Type :=
| get_now_username
| check_face_from_img (imgPath : string)
| open_camera
| stop_camera
| check_face_from_camera
| verify_face (referenceBase64 : option string)
| save_face_registration (name : string) (referenceBase64 : option string).

(** The values the promises resolve to, as far as the component reads them. *)
Inductive Value : Type :=
| VVoid
| VUser (code : Z) (data_username : string)
| VPath (selected : option string)
| VFace (display_base64 raw_base64 : string)
| VScore (display_base64 : option string) (score : number)
| VRecord (result : string).

Inductive Settled (error : Type) : Type :=
| Resolved (v : Value)
| Rejected (e : error).
Arguments Resolved {error} v.
Arguments Rejected {error} e.

Inductive Level : Type := success | warning | error_level.

(** What the component does to the outside, in the order it does it. *)
Inductive Effect (error : Type) : Type :=
| Invoke (cmd : Command)
| OpenDialog
| ElMessage (level : Level) (text : string)
| console_error (e : error)
| console_log (text : string) (v : Value)
| requestAnimationFrame.
Arguments Invoke {error} cmd.
Arguments OpenDialog {error}.
Arguments ElMessage {error} level text.
Arguments console_error {error} e.
Arguments console_log {error} text v.
Arguments requestAnimationFrame {error}.

(** The places of the script where a promise is awaited: a pending promise
    is represented by the place that continues when it settles. *)
Inductive Site : Type :=
| at_setup
| at_handleSelectFile_open
| at_handleSelectFile_check
| at_startCamera
| at_streamLoop_capture
| at_streamLoop_verify
| at_confirmCapture
| at_stopCapture
| at_toggleVerification_open
| at_toggleVerification_stop
| at_handleSave.

(** A configuration: the state, the promises not yet settled (oldest
    first), the number of [streamLoop] callbacks waiting for an animation
    frame, and the effects so far (oldest first). *)
Record Config (error : Type) : Type := {
  st : State;
  pending : list Site;
  frames : nat;
  trace : list (Effect error)
}.
Arguments st {error} c.
Arguments pending {error} c.
Arguments frames {error} c.
Arguments trace {error} c.

(** The controls of the template and the fields bound with [v-model]. *)
Inductive Control : Type :=
| SelectFile
| StartCamera
| ConfirmCapture
| StopCapture
| ToggleVerification
| Save.

Inductive Input : Type :=
| input_faceName (v : string)
| input_threshold (v : number)
| input_authForm (v : AuthForm).

Inductive Event (error : Type) : Type :=
| Click (b : Control)
| Edit (i : Input)
| Frame
| Settle (n : nat) (r : Settled error).
Arguments Click {error} b.
Arguments Edit {error} i.
Arguments Frame {error}.
Arguments Settle {error} n r.

Definition remove_at {A : Type} (n : nat) (l : list A) : list A :=
  firstn n l ++ skipn (S n) l.

(** The error signature of the passing no-face condition. *)
Definition no_face_signature : string := "未检测到人脸".

(** Reading a trace. *)
Definition is_message {error : Type} (e : Effect error) : bool :=
  match e with
  | ElMessage _ _ => true
  | _ => false
  end.

Definition is_reschedule {error : Type} (e : Effect error) : bool :=
  match e with
  | requestAnimationFrame => true
  | _ => false
  end.

Definition is_detection_call {error : Type} (e : Effect error) : bool :=
  match e with
  | Invoke check_face_from_camera | Invoke (verify_face _) => true
  | _ => false
  end.

Definition messages {error : Type} (t : list (Effect error))
    : list (Effect error) := filter is_message t.

Definition reschedules {error : Type} (t : list (Effect error)) : nat :=
  List.length (filter is_reschedule t).

Definition detection_calls {error : Type} (t : list (Effect error)) : nat :=
  List.length (filter is_detection_call t).

Section Component.

(** [formatObjectString] is imported from [utils/function]; the component
    only uses it to render a caught error as text. *)
Context {error : Type} (formatObjectString : error -> string).
Context `{Rounding}.

Definition Handler : Type := Config error -> Config error.

Definition update (f : State -> State) : Handler := fun c =>
  {| st := f (st c); pending := pending c; frames := frames c;
     trace := trace c |}.

Definition emit (e : Effect error) : Handler := fun c =>
  {| st := st c; pending := pending c; frames := frames c;
     trace := trace c ++ [e] |}.

Definition await (k : Site) : Handler := fun c =>
  {| st := st c; pending := pending c ++ [k]; frames := frames c;
     trace := trace c |}.

Definition then_do (f g : Handler) : Handler := fun c => g (f c).
Notation "f ;; g" := (then_do f g) (at level 61, right associativity).

Definition skip : Handler := fun c => c.

(** [invoke(cmd)] whose promise is continued at [k]. *)
Definition invoke (cmd : Command) (k : Site) : Handler :=
  emit (Invoke cmd) ;; await k.

(** [requestAnimationFrame(streamLoop)]. *)
Definition schedule_streamLoop : Handler := fun c =>
  {| st := st c; pending := pending c; frames := S (frames c);
     trace := trace c ++ [requestAnimationFrame] |}.

(** [ElMessage.error(formatObjectString(error)); console.error(error)]. *)
Definition report (e : error) : Handler :=
  emit (ElMessage error_level (formatObjectString e)) ;;
  emit (console_error e).

(** *** Verification scorer (lines 94-99 of [streamLoop]) *)
Definition confidence (rawScore : number) : number :=
  if gt rawScore (of_Z 0)
  then floor (min (of_Z 100) (mul (div rawScore (of_Z 1)) (of_Z 100)))
  else of_Z 0.

(** The class binding of the confidence tag in the template. *)
Inductive Classification : Type := match_ | mismatch.

Definition classify (matchConfidence threshold : number) : Classification :=
  if gt matchConfidence threshold then match_ else mismatch.

(** *** [streamLoop]: from its entry to the [await] *)
Definition streamLoop : Handler := fun c =>
  if negb (isLoopRunning (st c)) then c
  else if negb (verificationMode (st c))
  then invoke check_face_from_camera at_streamLoop_capture c
  else invoke (verify_face (after_comma (rawImageForSystem (st c))))
         at_streamLoop_verify c.

(** The [catch] block of [streamLoop]. *)
Definition streamLoop_catch (e : error) : Handler :=
  let info := formatObjectString e in
  if includes info no_face_signature
  then schedule_streamLoop
  else emit (ElMessage error_level info).

(** After [await invoke('check_face_from_camera')]. *)
Definition streamLoop_capture_resume
    (display_base64 raw_base64 : string) : Handler :=
  update (set_capturedImage display_base64) ;;
  update (set_rawImageForSystem raw_base64) ;;
  schedule_streamLoop.

(** After [await invoke('verify_face', ...)]. *)
Definition streamLoop_verify_resume
    (display_base64 : option string) (rawScore : number) : Handler :=
  (match display_base64 with
   | Some img =>
       if truthy img then update (set_verifyingStreamImage img) else skip
   | None => skip
   end) ;;
  update (set_matchConfidence (confidence rawScore)) ;;
  schedule_streamLoop.

(** *** Click handlers: from their entry to the first promise *)
Definition handleSelectFile : Handler :=
  emit OpenDialog ;; await at_handleSelectFile_open.

Definition startCamera : Handler := invoke open_camera at_startCamera.

Definition stopCamera (caller : Site) : Handler :=
  update (set_isLoopRunning false) ;; invoke stop_camera caller.

Definition confirmCapture : Handler := stopCamera at_confirmCapture.

Definition stopCapture : Handler := stopCamera at_stopCapture.

Definition toggleVerification : Handler := fun c =>
  let c1 := update (set_verificationMode (negb (verificationMode (st c)))) c in
  if verificationMode (st c1)
  then invoke open_camera at_toggleVerification_open c1
  else stopCamera at_toggleVerification_stop c1.

Definition handleSave : Handler := fun c =>
  if negb (truthy (username (authForm (st c))))
     || negb (truthy (password (authForm (st c))))
  then emit (ElMessage warning "请填写完整的账号密码信息") c
  else if negb (truthy (rawImageForSystem (st c)))
  then emit (ElMessage warning "请先录入面容图片") c
  else (update (set_isProcessing true) ;;
        invoke (save_face_registration
                  (or_else (faceName (st c)) "")
                  (after_comma (rawImageForSystem (st c))))
               at_handleSave) c.

Definition click (b : Control) : Handler :=
  match b with
  | SelectFile => handleSelectFile
  | StartCamera => startCamera
  | ConfirmCapture => confirmCapture
  | StopCapture => stopCapture
  | ToggleVerification => toggleVerification
  | Save => handleSave
  end.

Definition edit (i : Input) : Handler :=
  match i with
  | input_faceName v => update (set_faceName v)
  | input_threshold v => update (set_threshold v)
  | input_authForm v => update (set_authForm v)
  end.

(** *** Continuations: what runs when the promise awaited at a site settles

    [None] is a value of a shape the backend does not return for the
    command of that site. *)
Definition resume (k : Site) (r : Settled error) : option Handler :=
  match k, r with
  | at_setup, Resolved (VUser code name) =>
      Some (if (code =? 200)%Z
            then update (fun s =>
                           set_authForm (set_username name (authForm s)) s)
            else skip)
  | at_setup, Resolved _ => None
  | at_setup, Rejected _ => Some skip
  | at_handleSelectFile_open, Resolved (VPath selected) =>
      Some (match selected with
            | Some path =>
                if truthy path
                then update (set_isProcessing true) ;;
                     invoke (check_face_from_img path) at_handleSelectFile_check
                else update (set_isProcessing false)
            | None => update (set_isProcessing false)
            end)
  | at_handleSelectFile_open, Resolved _ => None
  | at_handleSelectFile_check, Resolved (VFace display raw) =>
      Some (update (set_capturedImage display) ;;
            update (set_rawImageForSystem raw) ;;
            emit (ElMessage success "图片载入成功") ;;
            update (set_isProcessing false))
  | at_handleSelectFile_check, Resolved _ => None
  | at_handleSelectFile_open, Rejected e
  | at_handleSelectFile_check, Rejected e =>
      Some (report e ;; update (set_isProcessing false))
  | at_startCamera, Resolved _ =>
      Some (update (set_isCameraStreaming true) ;;
            update (set_isLoopRunning true) ;;
            streamLoop)
  | at_toggleVerification_open, Resolved _ =>
      Some (update (set_isLoopRunning true) ;; streamLoop)
  | at_startCamera, Rejected e
  | at_toggleVerification_open, Rejected e => Some (report e)
  | at_streamLoop_capture, Resolved (VFace display raw) =>
      Some (streamLoop_capture_resume display raw)
  | at_streamLoop_capture, Resolved _ => None
  | at_streamLoop_verify, Resolved (VScore display score) =>
      Some (streamLoop_verify_resume display score)
  | at_streamLoop_verify, Resolved _ => None
  | at_streamLoop_capture, Rejected e
  | at_streamLoop_verify, Rejected e => Some (streamLoop_catch e)
  | at_confirmCapture, Resolved _ =>
      Some (update (set_isCameraStreaming false))
  | at_stopCapture, Resolved _ =>
      Some (update (set_isCameraStreaming false) ;;
            update (set_capturedImage "") ;;
            update (set_rawImageForSystem ""))
  | at_toggleVerification_stop, Resolved _ =>
      Some (update (set_verifyingStreamImage ""))
  | at_confirmCapture, Rejected e
  | at_stopCapture, Rejected e
  | at_toggleVerification_stop, Rejected e => Some (report e)
  | at_handleSave, Resolved v =>
      Some (emit (console_log "特征已保存至文件:" v) ;;
            update (set_isProcessing false))
  | at_handleSave, Rejected e =>
      Some (report e ;; update (set_isProcessing false))
  end.

(** *** One step of the event loop *)
Definition settle (n : nat) (r : Settled error) (c : Config error)
    : option (Config error) :=
  match nth_error (pending c) n with
  | None => None
  | Some k =>
      match resume k r with
      | None => None
      | Some h =>
          Some (h {| st := st c; pending := remove_at n (pending c);
                     frames := frames c; trace := trace c |})
      end
  end.

Definition frame (c : Config error) : option (Config error) :=
  match frames c with
  | O => None
  | S n =>
      Some (streamLoop {| st := st c; pending := pending c; frames := n;
                          trace := trace c |})
  end.

Definition step (c : Config error) (ev : Event error)
    : option (Config error) :=
  match ev with
  | Click b => Some (click b c)
  | Edit i => Some (edit i c)
  | Frame => frame c
  | Settle n r => settle n r c
  end.

Fixpoint run (c : Config error) (evs : list (Event error))
    : option (Config error) :=
  match evs with
  | [] => Some c
  | ev :: evs' =>
      match step c ev with
      | None => None
      | Some c' => run c' evs'
      end
  end.

(** The component as it is set up: [invoke('get_now_username')] is sent. *)
Definition initial : Config error :=
  {| st := initial_state; pending := [at_setup]; frames := 0;
     trace := [Invoke get_now_username] |}.

(** *** The template: which controls are shown ([v-if]) and enabled *)
Definition rendered (s : State) (b : Control) : bool :=
  match b with
  | SelectFile | StartCamera =>
      negb (verificationMode s) && negb (isCameraStreaming s)
  | ConfirmCapture | StopCapture =>
      negb (verificationMode s) && isCameraStreaming s
  | ToggleVerification =>
      truthy (capturedImage s) && negb (isCameraStreaming s)
  | Save => true
  end.

(** The [:disabled] binding of the save button. *)
Definition bound_disabled (s : State) (b : Control) : bool :=
  match b with
  | Save => negb (truthy (capturedImage s)) || isCameraStreaming s
  | _ => false
  end.

(** The [:loading="isProcessing"] binding of the select, start and save
    buttons. *)
Definition loading (s : State) (b : Control) : bool :=
  match b with
  | SelectFile | StartCamera | Save => isProcessing s
  | _ => false
  end.

(** A button takes no click while it is disabled by its binding or while
    it is loading. *)
Definition disabled (s : State) (b : Control) : bool :=
  bound_disabled s b || loading s b.

(** A click reaches its handler only on a control that is shown and not
    disabled. *)
Definition offered (s : State) (b : Control) : bool :=
  rendered s b && negb (disabled s b).

(** A click that the template lets through; the other events are the
    host's and the backend's. *)
Definition admitted (c : Config error) (ev : Event error) : bool :=
  match ev with
  | Click b => offered (st c) b
  | _ => true
  end.

(** A run in which every click is on a control the template offers. *)
Fixpoint ui_run (c : Config error) (evs : list (Event error))
    : option (Config error) :=
  match evs with
  | [] => Some c
  | ev :: evs' =>
      if admitted c ev
      then match step c ev with
           | None => None
           | Some c' => ui_run c' evs'
           end
      else None
  end.

(** *** Loop bookkeeping *)
Definition is_detection (k : Site) : bool :=
  match k with
  | at_streamLoop_capture | at_streamLoop_verify => true
  | _ => false
  end.

(** Detection calls whose promise has not settled yet. *)
Definition in_flight (c : Config error) : nat :=
  List.length (filter is_detection (pending c)).

(** Every live [streamLoop] chain is either waiting for its detection call
    or waiting for its animation frame. *)
Definition live_loops (c : Config error) : nat := in_flight c + frames c.

(** The detection command a tick sends in a given state. *)
Definition detection_command (s : State) : Command :=
  if verificationMode s
  then verify_face (after_comma (rawImageForSystem s))
  else check_face_from_camera.

Definition detection_site (s : State) : Site :=
  if verificationMode s then at_streamLoop_verify else at_streamLoop_capture.

(** The passing no-face condition, as [streamLoop] recognises it. *)
Definition no_face (e : error) : bool :=
  includes (formatObjectString e) no_face_signature.

(** An event that starts a new [streamLoop] chain: [open_camera] resolves. *)
Definition starts_loop (c : Config error) (ev : Event error) : bool :=
  match ev with
  | Settle n (Resolved _) =>
      match nth_error (pending c) n with
      | Some at_startCamera | Some at_toggleVerification_open => true
      | _ => false
      end
  | _ => false
  end.

Fixpoint loop_starts (c : Config error) (evs : list (Event error)) : nat :=
  match evs with
  | [] => 0
  | ev :: evs' =>
      (if starts_loop c ev then 1 else 0)
      + match step c ev with
        | Some c' => loop_starts c' evs'
        | None => 0
        end
  end.

(** One loop round for each error: the detection call at position [n] is
    rejected, then the rescheduled tick runs. *)
Definition rejected_ticks (n : nat) (errs : list error)
    : list (Event error) :=
  flat_map (fun e => [Settle n (Rejected e); Frame]) errs.

(** The rounds of a loop whose detection call is the [n]-th pending
    promise: after the first round its call is the one sent last. *)
Definition no_face_run (c : Config error) (n : nat) (errs : list error)
    : list (Event error) :=
  match errs with
  | [] => []
  | e :: errs' =>
      Settle n (Rejected e) :: Frame
      :: rejected_ticks (List.length (pending c) - 1) errs'
  end.

End Component.

End FaceAdd.

(** ** The statements of the specification

    The scorer in the specification's words, and the sentences of the
    specification that are compared with the component below. *)
Module Stated.
Import JsNum JsStr FaceAdd.

(** The scorer as the specification words it:
    [floor(min(100, max(0, similarity_score) * 100))] when
    [similarity_score > 0], else [0]. *)
Definition spec_confidence `{Rounding} (similarity_score : number) : number :=
  if gt similarity_score (of_Z 0)
  then floor (min (of_Z 100)
                (mul (max (of_Z 0) similarity_score) (of_Z 100)))
  else of_Z 0.

Section Statements.
Context {error : Type} (formatObjectString : error -> string).
Context `{Rounding}.

Abbreviation Config := (Config error).
Abbreviation settle := (settle formatObjectString).
Abbreviation no_face := (no_face formatObjectString).

(** The effects of the rounds of [rejected_ticks] in a fixed state. *)
Definition swallowed_rounds (s : State) (errs : list error)
    : list (Effect error) :=
  flat_map (fun _ => [requestAnimationFrame; Invoke (detection_command s)])
    errs.

(** C2 as the specification states it: an error without the no-face
    signature is shown and the next tick is scheduled all the same. *)
Definition generic_error_reschedules : Prop :=
  forall (c : Config) n k e,
    nth_error (pending c) n = Some k -> is_detection k = true ->
    isLoopRunning (st c) = true -> no_face e = false ->
    exists c', settle n (Rejected e) c = Some c'
      /\ In (ElMessage error_level (formatObjectString e)) (trace c')
      /\ frames c' = S (frames c).

(** C3 as the specification states it: however the release call settles,
    both images and the running and streaming flags are cleared. *)
Definition cancel_always_clears : Prop :=
  forall (c c' : Config) r,
    settle (List.length (pending c)) r (stopCapture c) = Some c' ->
    capturedImage (st c') = "" /\ rawImageForSystem (st c') = ""
    /\ isLoopRunning (st c') = false /\ isCameraStreaming (st c') = false.


(** C10 as it is stated: whenever verify mode is entered and the
    acquisition fails, verify mode is shown as active and no frame loop is
    running. *)
Definition failed_toggle_leaves_idle : Prop :=
  forall (c c' : Config) e,
    verificationMode (st c) = false ->
    settle (List.length (pending c)) (Rejected e) (toggleVerification c)
    = Some c' ->
    verificationMode (st c') = true
    /\ isLoopRunning (st c') = false
    /\ live_loops c' = 0.

End Statements.

End Stated.

(** ** Sessions to replay

    Configurations and event lists of concrete sessions, with errors that
    are their own text. *)
Module Replay.
Import JsNum JsStr FaceAdd.

Definition show (e : string) : string := e.

Definition frame_shown : string := "data:image/jpeg;base64,AAAA".
Definition frame_kept : string := "data:image/jpeg;base64,BBBB".

(** The camera was started and the first detection call is in flight. *)
Definition streaming : Config string :=
  {| st := set_isLoopRunning true (set_isCameraStreaming true initial_state);
     pending := [at_setup; at_streamLoop_capture];
     frames := 0;
     trace := [Invoke get_now_username; Invoke open_camera;
               Invoke check_face_from_camera] |}.

(** A frame was taken from a file and the account is filled in. *)
Definition account : AuthForm :=
  {| accountType := "local"; username := "alice"; password := "secret" |}.

Definition captured : Config string :=
  {| st := set_rawImageForSystem frame_kept
             (set_capturedImage frame_shown
                (set_authForm account initial_state));
     pending := [];
     frames := 0;
     trace := [Invoke get_now_username; OpenDialog;
               Invoke (check_face_from_img "face.png");
               ElMessage success "图片载入成功"] |}.

Definition five_misses : list string :=
  ["未检测到人脸"; "Error: 未检测到人脸"; "未检测到人脸";
   "未检测到人脸，请正对摄像头"; "未检测到人脸"].

Definition confirm_round : list (Event string) :=
  [Settle 1 (Resolved (VFace frame_shown frame_kept));
   Click ConfirmCapture; Frame; Settle 1 (Resolved VVoid)].

End Replay.


(** ** Further vocabulary

    What the remaining properties of the component are stated with. *)
Module Observed.
Import JsNum JsStr FaceAdd.

(** [pieces.join(sep)]. *)
Fixpoint join (sep : ascii) (pieces : list string) : string :=
  match pieces with
  | [] => ""
  | piece :: rest =>
      match rest with
      | [] => piece
      | _ :: _ => piece ++ String sep (join sep rest)
      end
  end.

Fixpoint has_char (ch : ascii) (s : string) : bool :=
  match s with
  | EmptyString => false
  | String ch' s' => Ascii.eqb ch' ch || has_char ch s'
  end.

Fixpoint count_char (ch : ascii) (s : string) : nat :=
  match s with
  | EmptyString => 0
  | String ch' s' => (if Ascii.eqb ch' ch then 1 else 0) + count_char ch s'
  end.

(** The display image and the raw image are empty together. *)
Definition paired (s : State) : Prop :=
  capturedImage s = "" <-> rawImageForSystem s = "".

(** A backend whose detection results carry either both images or none. *)
Definition faithful {error : Type} (ev : Event error) : Prop :=
  match ev with
  | Settle _ (Resolved (VFace display raw)) => display = "" <-> raw = ""
  | _ => True
  end.

(** The promises during which [isProcessing] is meant to be set. *)
Definition busy_cause (k : Site) : bool :=
  match k with
  | at_handleSelectFile_check | at_handleSave => true
  | _ => false
  end.

Definition busy_explained {error : Type} (c : Config error) : Prop :=
  isProcessing (st c) = true -> existsb busy_cause (pending c) = true.

(** The fields of the state that only the session operations write. *)
Definition same_session (s s' : State) : Prop :=
  capturedImage s' = capturedImage s
  /\ rawImageForSystem s' = rawImageForSystem s
  /\ isCameraStreaming s' = isCameraStreaming s
  /\ isLoopRunning s' = isLoopRunning s
  /\ verificationMode s' = verificationMode s
  /\ verifyingStreamImage s' = verifyingStreamImage s
  /\ matchConfidence s' = matchConfidence s
  /\ faceName s' = faceName s
  /\ threshold s' = threshold s
  /\ authForm s' = authForm s.

Definition is_setup (k : Site) : bool :=
  match k with
  | at_setup => true
  | _ => false
  end.

(** One loop round for each verification sample: the call at position [n]
    resolves with the sample, then the rescheduled tick runs. *)
Definition verify_ticks {error : Type} (n : nat)
    (samples : list (option string * number)) : list (Event error) :=
  flat_map (fun sample =>
              [Settle n (Resolved (VScore (fst sample) (snd sample)));
               Frame])
    samples.

End Observed.

(** ** Further sessions to replay *)
Module MoreSessions.
Import JsNum JsStr FaceAdd Observed Replay.

(** Verify mode is on and the first verification call is in flight. *)
Definition verifying : Config string :=
  {| st := set_isLoopRunning true (set_verificationMode true (st captured));
     pending := [at_streamLoop_verify];
     frames := 0;
     trace := trace captured
              ++ [Invoke open_camera; Invoke (verify_face (Some "BBBB"))] |}.

(** The account is filled in, the raw image is no data URL. *)
Definition bare : Config string :=
  {| st := set_rawImageForSystem "BBBB" (st captured);
     pending := []; frames := 0; trace := [] |}.

Definition file_chosen : list (Event string) :=
  [Settle 0 (Resolved (VUser 200 "alice"));
   Edit (input_authForm account);
   Click SelectFile;
   Settle 0 (Resolved (VPath (Some "face.png")));
   Settle 0 (Resolved (VFace frame_shown frame_kept))].

Definition two_samples : list (option string * number) :=
  [(Some frame_shown, Fin (21 # 50)); (None, NaN)].

End MoreSessions.

(** ** The camera of the backend *)
Module Backend.
Import JsNum JsStr FaceAdd Replay.

(** Modelled from the spec: the backend commands [open_camera] and
    [stop_camera] are not under src/.  Sections 4.1 and 6 of the
    specification: the acquisition is exclusive, it fails with
    [ResourceBusyError] while the camera is already held and may fail with
    [DeviceError] at any time; the release is safe to call when the camera
    is already released.  [handles] is the number of acquisitions that
    succeeded and were not released; the result is [None] for an answer the
    backend does not give. *)
Definition camera_after {error : Type} (handles : nat) (k : Site)
    (r : Settled error) : option nat :=
  match k, r with
  | at_startCamera, Resolved _
  | at_toggleVerification_open, Resolved _ =>
      match handles with
      | O => Some 1
      | S _ => None
      end
  | at_confirmCapture, Resolved _
  | at_stopCapture, Resolved _
  | at_toggleVerification_stop, Resolved _ => Some 0
  | _, _ => Some handles
  end.


(** The component together with the camera of its backend. *)
Record World (error : Type) : Type := {
  component : Config error;
  handles : nat
}.
Arguments component {error} w.
Arguments handles {error} w.

Section World.
Context {error : Type} (formatObjectString : error -> string).
Context `{Rounding}.

(** The backend answers the [n]-th pending promise. *)
Definition answer (n : nat) (r : Settled error) (w : World error)
    : option (World error) :=
  match nth_error (pending (component w)) n with
  | None => None
  | Some k =>
      match camera_after (handles w) k r with
      | None => None
      | Some held =>
          match settle formatObjectString n r (component w) with
          | None => None
          | Some c' => Some {| component := c'; handles := held |}
          end
      end
  end.

(** One event of the running application: a click the template lets
    through, an edit, an animation frame, or an answer of the backend. *)
Definition world_step (w : World error) (ev : Event error)
    : option (World error) :=
  match ev with
  | Settle n r => answer n r w
  | _ =>
      if admitted (component w) ev
      then match step formatObjectString (component w) ev with
           | None => None
           | Some c' => Some {| component := c'; handles := handles w |}
           end
      else None
  end.

Fixpoint world_run (w : World error) (evs : list (Event error))
    : option (World error) :=
  match evs with
  | [] => Some w
  | ev :: evs' =>
      match world_step w ev with
      | None => None
      | Some w' => world_run w' evs'
      end
  end.

(** The component as it is set up, the camera free. *)
Definition mounted : World error :=
  {| component := initial; handles := 0 |}.

End World.

(** *** Sessions of the running application *)

(** A capture is confirmed while its last detection call is still out,
    then verify mode is entered. *)
Definition restart_with_call_out : list (Event string) :=
  [Click StartCamera; Settle 1 (Resolved VVoid);
   Settle 1 (Resolved (VFace frame_shown frame_kept)); Frame;
   Click ConfirmCapture; Settle 2 (Resolved VVoid);
   Click ToggleVerification; Settle 2 (Resolved VVoid)].

(** The call of the confirmed capture returns and its tick runs. *)
Definition stale_call_returns : list (Event string) :=
  [Settle 1 (Resolved (VFace "late" "data:,late")); Frame].

(** A file is checked and the backend returns a display image without a
    raw image. *)
Definition display_only : list (Event string) :=
  [Click SelectFile;
   Settle 1 (Resolved (VPath (Some "face.png")));
   Settle 1 (Resolved (VFace frame_shown ""))].

(** A frame is taken from a file; verify mode is entered and left before
    the camera answers, then the camera and the release answer. *)
Definition toggled_on_and_off : list (Event string) :=
  [Click SelectFile;
   Settle 1 (Resolved (VPath (Some "face.png")));
   Settle 1 (Resolved (VFace frame_shown frame_kept));
   Click ToggleVerification; Click ToggleVerification;
   Settle 1 (Resolved VVoid); Settle 1 (Resolved VVoid)].

(** The camera was started by the running application. *)
Definition camera_started : list (Event string) :=
  [Click StartCamera; Settle 1 (Resolved VVoid)].

(** Where [display_only] and [toggled_on_and_off] lead. *)
Definition file_checked : list (Effect string) :=
  [Invoke get_now_username; OpenDialog;
   Invoke (check_face_from_img "face.png");
   ElMessage success "图片载入成功"].

Definition without_raw : World string :=
  {| component :=
       {| st := set_capturedImage frame_shown initial_state;
          pending := [at_setup]; frames := 0; trace := file_checked |};
     handles := 0 |}.

Definition two_calls_out : World string :=
  {| component :=
       {| st := set_verificationMode true
                  (set_isLoopRunning true
                     (set_rawImageForSystem frame_kept
                        (set_capturedImage frame_shown initial_state)));
          pending := [at_setup; at_streamLoop_capture;
                      at_streamLoop_verify];
          frames := 0;
          trace := [Invoke get_now_username; Invoke open_camera;
                    Invoke check_face_from_camera; requestAnimationFrame;
                    Invoke check_face_from_camera; Invoke stop_camera;
                    Invoke open_camera;
                    Invoke (verify_face (Some "BBBB"))] |};
     handles := 1 |}.

Definition two_loops : World string :=
  {| component :=
       {| st := set_rawImageForSystem "data:,late"
                  (set_capturedImage "late" (st (component two_calls_out)));
          pending := [at_setup; at_streamLoop_verify;
                      at_streamLoop_verify];
          frames := 0;
          trace := trace (component two_calls_out)
                   ++ [requestAnimationFrame;
                       Invoke (verify_face (Some "late"))] |};
     handles := 1 |}.

Definition raced : World string :=
  {| component :=
       {| st := set_isLoopRunning true
                  (set_rawImageForSystem frame_kept
                     (set_capturedImage frame_shown initial_state));
          pending := [at_setup; at_streamLoop_capture]; frames := 0;
          trace := file_checked
                   ++ [Invoke open_camera; Invoke stop_camera;
                       Invoke check_face_from_camera] |};
     handles := 0 |}.

End Backend.

(** * Properties *)

(** ** Numbers and strings *)
Module JsNumFacts.
Import JsNum.
Local Open Scope Q_scope.

Lemma Qltb_lt a b : Qltb a b = true <-> (a < b)%Q.
Proof.
  unfold Qltb. rewrite negb_true_iff. split; intro H.
  - apply Qnot_le_lt. intro L. apply Qle_bool_iff in L. congruence.
  - destruct (Qle_bool b a) eqn:E; trivial.
    apply Qle_bool_iff in E. exfalso. exact (Qlt_not_le _ _ H E).
Qed.

Lemma Qltb_ge a b : Qltb a b = false <-> (b <= a)%Q.
Proof.
  unfold Qltb. rewrite negb_false_iff. apply Qle_bool_iff.
Qed.

(** Exact arithmetic is one instance: every rational is representable once
    it is written in lowest terms. *)
#[export] Program Instance exact_rounding : Rounding :=
  {| round := fun q => Fin (Qred q) |}.
Next Obligation. f_equal. now apply Qred_complete. Qed.
Next Obligation. now rewrite !Qred_correct. Qed.

End JsNumFacts.

Module JsStrFacts.
Import JsStr.

Lemma truthy_false s : truthy s = false <-> s = "".
Proof.
  unfold truthy. rewrite negb_false_iff. apply String.eqb_eq.
Qed.

Lemma prefix_app pat rest : String.prefix pat (pat ++ rest) = true.
Proof.
  induction pat as [|ch pat IH]; simpl.
  - now destruct rest.
  - destruct (ascii_dec ch ch); [exact IH | congruence].
Qed.

Lemma prefix_split pat s :
  String.prefix pat s = true -> exists rest, s = pat ++ rest.
Proof.
  revert s. induction pat as [|ch pat IH]; intros s Hp.
  - now exists s.
  - destruct s as [|ch' s]; simpl in Hp; [discriminate|].
    destruct (ascii_dec ch ch') as [->|]; [|discriminate].
    destruct (IH s Hp) as [rest ->]. now exists rest.
Qed.

(** [includes] finds exactly the occurrences of the pattern. *)
Lemma includes_spec s pat :
  includes s pat = true <-> exists before rest, s = before ++ pat ++ rest.
Proof.
  split.
  - induction s as [|ch s IH]; intro Hi; cbn [includes] in Hi.
    + destruct (String.prefix pat "") eqn:Hp; [|discriminate Hi].
      destruct (prefix_split _ _ Hp) as [rest Hr]. now exists "", rest.
    + destruct (String.prefix pat (String ch s)) eqn:Hp.
      * destruct (prefix_split _ _ Hp) as [rest Hr]. now exists "", rest.
      * destruct (IH Hi) as (before & rest & ->).
        now exists (String ch before), rest.
  - intros (before & rest & ->).
    induction before as [|ch before IH].
    + change ("" ++ pat ++ rest) with (pat ++ rest).
      pose proof (prefix_app pat rest) as Hp.
      destruct (pat ++ rest); cbn [includes]; now rewrite Hp.
    + change (String ch before ++ pat ++ rest)
        with (String ch (before ++ pat ++ rest)).
      cbn [includes]. rewrite IH.
      now destruct (String.prefix pat (String ch (before ++ pat ++ rest))).
Qed.

End JsStrFacts.

(** ** Verification scorer *)
Module ScorerFacts.
Import JsNum JsStr FaceAdd Stated JsNumFacts.
Local Open Scope Q_scope.

Section Scorer.
Context `{Rounding}.

Lemma div_one q : round q = Fin q -> div (Fin q) (of_Z 1) = Fin q.
Proof.
  intro Hq. unfold div, of_Z.
  change (Qeq_bool (inject_Z 1) 0) with false. cbn iota.
  transitivity (round q); [|exact Hq].
  apply round_value. change (inject_Z 1) with 1%Q. field.
Qed.

Lemma scaled_below q :
  (q <= 1)%Q -> le (round (q * inject_Z 100)) (of_Z 100).
Proof.
  intro Hq. rewrite <- round_100. apply round_mono.
  setoid_replace (inject_Z 100) with (1 * inject_Z 100)%Q at 2 by ring.
  apply Qmult_le_compat_r; [exact Hq | discriminate].
Qed.

Lemma scaled_above q :
  (1 <= q)%Q -> le (of_Z 100) (round (q * inject_Z 100)).
Proof.
  intro Hq. rewrite <- round_100. apply round_mono.
  setoid_replace (inject_Z 100) with (1 * inject_Z 100)%Q at 1 by ring.
  apply Qmult_le_compat_r; [exact Hq | discriminate].
Qed.

Lemma floor_min_below x :
  le x (of_Z 100) -> floor (min (of_Z 100) x) = floor x.
Proof.
  destruct x as [| | |a]; simpl; try tauto.
  intro Ha. destruct (Qltb a (inject_Z 100)) eqn:E; [reflexivity|].
  apply Qltb_ge in E. unfold floor, of_Z. do 2 f_equal.
  apply Qfloor_comp. now apply Qle_antisym.
Qed.

Lemma min_above x : le (of_Z 100) x -> min (of_Z 100) x = of_Z 100.
Proof.
  destruct x as [| | |a]; simpl; try tauto.
  intro Ha. destruct (Qltb a (inject_Z 100)) eqn:E; [|reflexivity].
  apply Qltb_lt in E. exfalso. exact (Qlt_not_le _ _ E Ha).
Qed.

Lemma confidence_positive q :
  round q = Fin q -> (0 < q)%Q ->
  confidence (Fin q) = floor (min (of_Z 100) (mul (Fin q) (of_Z 100))).
Proof.
  intros Hr Hq. unfold confidence, gt. cbn [lt of_Z].
  apply Qltb_lt in Hq. change (inject_Z 0) with 0%Q. rewrite Hq.
  now rewrite (div_one q Hr).
Qed.

(** C1.  The confidence computed in [streamLoop] is the specification's
    [floor(min(100, max(0, score) * 100))] for a score above zero and [0]
    otherwise; so it is [0] for every score at most zero, [floor(score *
    100)] for every score in (0, 1], and exactly [100] for every score above
    one (the infinite one included). *)
Theorem confidence_scorer (similarity_score : number)
    (Hscore : representable similarity_score) :
  confidence similarity_score = spec_confidence similarity_score
  /\ (gt similarity_score (of_Z 0) = false ->
      confidence similarity_score = of_Z 0)
  /\ (forall q, similarity_score = Fin q -> (q <= 0)%Q ->
      confidence similarity_score = of_Z 0)
  /\ (forall q, similarity_score = Fin q -> (0 < q)%Q -> (q <= 1)%Q ->
      confidence similarity_score
      = floor (mul similarity_score (of_Z 100)))
  /\ (forall q, similarity_score = Fin q -> (1 < q)%Q ->
      confidence similarity_score = of_Z 100)
  /\ (similarity_score = PosInf -> confidence similarity_score = of_Z 100).
Proof.
  repeat split.
  - unfold confidence, spec_confidence.
    destruct (gt similarity_score (of_Z 0)) eqn:Hgt; [|reflexivity].
    destruct similarity_score as [| | |q]; try discriminate; [reflexivity|].
    simpl in Hscore. rewrite (div_one q Hscore).
    unfold gt in Hgt. cbn [lt of_Z] in Hgt.
    unfold max. cbn [of_Z lt]. now rewrite Hgt.
  - intro Hgt. unfold confidence. now rewrite Hgt.
  - intros q -> Hq. unfold confidence, gt. cbn [lt of_Z].
    apply Qltb_ge in Hq. change (inject_Z 0) with 0%Q. now rewrite Hq.
  - intros q -> Hpos Hle. simpl in Hscore.
    rewrite (confidence_positive q Hscore Hpos).
    apply floor_min_below. cbn [mul of_Z]. now apply scaled_below.
  - intros q -> Hgt. simpl in Hscore.
    assert (Hpos : (0 < q)%Q) by (apply Qlt_trans with 1%Q; easy).
    rewrite (confidence_positive q Hscore Hpos).
    cbn [mul of_Z]. rewrite min_above; [reflexivity|].
    apply scaled_above. now apply Qlt_le_weak.
  - intros ->. reflexivity.
Qed.

(** C8.  The confidence tag is classified as a match exactly when the
    confidence is strictly above the threshold; a confidence equal to the
    threshold is a mismatch, and so is every comparison with [NaN]. *)
Theorem classification_strict (x y : Q) (c : number) :
  (classify (Fin x) (Fin y) = match_ <-> (y < x)%Q)
  /\ (classify (Fin x) (Fin y) = mismatch <-> (x <= y)%Q)
  /\ ((x == y)%Q -> classify (Fin x) (Fin y) = mismatch)
  /\ classify c c = mismatch
  /\ classify NaN c = mismatch
  /\ classify c NaN = mismatch.
Proof.
  unfold classify, gt. cbn [lt].
  repeat split.
  - destruct (Qltb y x) eqn:E; [intros _; now apply Qltb_lt | discriminate].
  - intro Hlt. apply Qltb_lt in Hlt. now rewrite Hlt.
  - destruct (Qltb y x) eqn:E; [discriminate | intros _; now apply Qltb_ge].
  - intro Hle. apply Qltb_ge in Hle. now rewrite Hle.
  - intro Heq. assert (Hle : (x <= y)%Q) by (rewrite Heq; apply Qle_refl).
    apply Qltb_ge in Hle. now rewrite Hle.
  - destruct c as [| | |q]; try reflexivity. cbn [lt].
    assert (Hle : (q <= q)%Q) by apply Qle_refl.
    apply Qltb_ge in Hle. now rewrite Hle.
  - now destruct c.
Qed.

End Scorer.

(** The scenarios of the specification, computed with exact arithmetic. *)
Example scenario_042 :
  confidence (Fin (21 # 50)) = of_Z 42
  /\ classify (confidence (Fin (21 # 50))) (of_Z 50) = mismatch.
Proof. split; reflexivity. Qed.

Example scenario_091 :
  confidence (Fin (91 # 100)) = of_Z 91
  /\ classify (confidence (Fin (91 # 100))) (of_Z 80) = match_.
Proof. split; reflexivity. Qed.

Lemma confidence_scorer_witness :
  representable (Fin (21 # 50))
  /\ confidence (Fin (21 # 50)) = spec_confidence (Fin (21 # 50))
  /\ confidence (Fin (21 # 50)) = floor (mul (Fin (21 # 50)) (of_Z 100)).
Proof.
  assert (Hrep : representable (Fin (21 # 50))) by reflexivity.
  destruct (confidence_scorer (Fin (21 # 50)) Hrep)
    as (Hspec & _ & _ & Hunit & _).
  split; [exact Hrep|]. split; [exact Hspec|].
  apply (Hunit (21 # 50)); [reflexivity | reflexivity | discriminate].
Defined.

Lemma classification_strict_witness :
  classify (of_Z 50) (Fin (100 # 2)) = mismatch.
Proof.
  destruct (classification_strict (inject_Z 50) (100 # 2) NaN)
    as (_ & _ & Hboundary & _).
  apply Hboundary. reflexivity.
Defined.

End ScorerFacts.

(** ** The frame loop *)
Module LoopFacts.
Import JsNum JsStr FaceAdd Stated.

Section Loop.
Context {error : Type} (formatObjectString : error -> string).
Context `{Rounding}.

Abbreviation Config := (Config error).
Abbreviation step := (step formatObjectString).
Abbreviation run := (run formatObjectString).
Abbreviation settle := (settle formatObjectString).
Abbreviation resume := (resume formatObjectString).
Abbreviation streamLoop_catch := (streamLoop_catch formatObjectString).
Abbreviation no_face := (no_face formatObjectString).
Abbreviation loop_starts := (loop_starts formatObjectString).
Abbreviation generic_error_reschedules :=
  (generic_error_reschedules formatObjectString).

(** *** A tick *)

Lemma streamLoop_stopped (c : Config) :
  isLoopRunning (st c) = false -> streamLoop c = c.
Proof.
  intro Hstop. unfold streamLoop. now rewrite Hstop.
Qed.

Lemma streamLoop_running (c : Config) :
  isLoopRunning (st c) = true ->
  streamLoop c =
  {| st := st c; pending := pending c ++ [detection_site (st c)];
     frames := frames c;
     trace := trace c ++ [Invoke (detection_command (st c))] |}.
Proof.
  intro Hrun. unfold streamLoop, detection_site, detection_command.
  rewrite Hrun. now destruct (verificationMode (st c)).
Qed.

Lemma detection_site_is_detection s : is_detection (detection_site s) = true.
Proof.
  unfold detection_site. now destruct (verificationMode s).
Qed.

(** *** Counting the live loops *)

Lemma filter_remove_at {A : Type} (p : A -> bool) (l : list A) n k :
  nth_error l n = Some k ->
  List.length (filter p l)
  = List.length (filter p (remove_at n l)) + (if p k then 1 else 0).
Proof.
  unfold remove_at. revert n. induction l as [|a l IH]; intros [|n] Hn;
    try discriminate.
  - injection Hn as ->. simpl. destruct (p k); simpl; lia.
  - simpl in Hn. specialize (IH n Hn).
    change (firstn (S n) (a :: l) ++ skipn (S (S n)) (a :: l))%list
      with (a :: (firstn n l ++ skipn (S n) l))%list.
    cbn [filter]. destruct (p a); cbn [List.length]; lia.
Qed.

Lemma in_flight_await (c : Config) k :
  in_flight (await k c) = in_flight c + (if is_detection k then 1 else 0).
Proof.
  unfold in_flight, await. simpl. rewrite filter_app, length_app. simpl.
  now destruct (is_detection k).
Qed.

Lemma live_update f (c : Config) : live_loops (update f c) = live_loops c.
Proof. reflexivity. Qed.

Lemma live_emit e (c : Config) : live_loops (emit e c) = live_loops c.
Proof. reflexivity. Qed.

Lemma live_await k (c : Config) :
  live_loops (await k c)
  = live_loops c + (if is_detection k then 1 else 0).
Proof.
  unfold live_loops. rewrite in_flight_await.
  change (frames (await k c)) with (frames c). lia.
Qed.

Lemma live_schedule (c : Config) :
  live_loops (schedule_streamLoop c) = S (live_loops c).
Proof.
  unfold live_loops, in_flight. simpl. lia.
Qed.

Lemma live_then f g (c : Config) :
  live_loops (then_do f g c) = live_loops (g (f c)).
Proof. reflexivity. Qed.

Lemma live_skip (c : Config) : live_loops (skip c) = live_loops c.
Proof. reflexivity. Qed.

Lemma live_streamLoop (c : Config) :
  live_loops (streamLoop c)
  = live_loops c + (if isLoopRunning (st c) then 1 else 0).
Proof.
  destruct (isLoopRunning (st c)) eqn:Hrun.
  - rewrite (streamLoop_running c Hrun).
    change (live_loops (emit (Invoke (detection_command (st c)))
                          (await (detection_site (st c)) c))
            = live_loops c + 1).
    now rewrite live_emit, live_await, detection_site_is_detection.
  - rewrite (streamLoop_stopped c Hrun). lia.
Qed.

Ltac live :=
  repeat (rewrite ?live_then, ?live_update, ?live_emit, ?live_await,
            ?live_schedule, ?live_skip, ?live_streamLoop;
          cbn [is_detection]).

Lemma live_click b (c : Config) :
  live_loops (click b c) = live_loops c.
Proof.
  destruct b; cbn [click].
  - unfold handleSelectFile. live. lia.
  - unfold startCamera, invoke. live. lia.
  - unfold confirmCapture, stopCamera, invoke. live. lia.
  - unfold stopCapture, stopCamera, invoke. live. lia.
  - unfold toggleVerification. cbv zeta.
    destruct (verificationMode (st (update _ c)));
      unfold stopCamera, invoke; live; lia.
  - unfold handleSave.
    destruct (negb _ || negb _); [live; lia|].
    destruct (negb _); unfold invoke; live; lia.
Qed.

Lemma live_removed (c : Config) n k :
  nth_error (pending c) n = Some k ->
  live_loops c
  = live_loops {| st := st c; pending := remove_at n (pending c);
                  frames := frames c; trace := trace c |}
    + (if is_detection k then 1 else 0).
Proof.
  intro Hk. unfold live_loops, in_flight. cbn [pending frames].
  rewrite (filter_remove_at is_detection _ n k Hk). lia.
Qed.

Lemma live_settle (c c' : Config) n r :
  settle n r c = Some c' ->
  live_loops c' <= live_loops c + (if starts_loop c (Settle n r) then 1 else 0).
Proof.
  unfold settle, starts_loop.
  destruct (nth_error (pending c) n) as [k|] eqn:Hk; [|discriminate].
  destruct (resume k r) as [h|] eqn:Hh; [|discriminate].
  intro Hc'. injection Hc' as <-.
  rewrite (live_removed c n k Hk).
  set (c0 := {| st := st c; pending := remove_at n (pending c);
                frames := frames c; trace := trace c |}).
  destruct k, r as [v|e]; try destruct v; cbn [resume] in Hh;
    try discriminate; injection Hh as <-;
    cbn [is_detection]; cbv beta iota;
    unfold report, invoke, streamLoop_capture_resume,
      streamLoop_verify_resume, FaceAdd.streamLoop_catch;
    repeat match goal with
           | |- context [match ?o with Some _ => _ | None => _ end] =>
               destruct o
           | |- context [if ?b then _ else _] => destruct b
           end;
    live;
    repeat match goal with
           | |- context [if ?b then _ else _] => destruct b
           end;
    lia.
Qed.

Lemma live_frame (c c' : Config) :
  frame c = Some c' -> live_loops c' <= live_loops c.
Proof.
  unfold frame. destruct (frames c) as [|n] eqn:Hn; [discriminate|].
  intro Hc'. injection Hc' as <-. rewrite live_streamLoop.
  unfold live_loops, in_flight. cbn [st pending frames]. rewrite Hn.
  destruct (isLoopRunning (st c)); lia.
Qed.

Lemma live_step (c c' : Config) ev :
  step c ev = Some c' ->
  live_loops c' <= live_loops c + (if starts_loop c ev then 1 else 0).
Proof.
  destruct ev as [b|i| |n r]; cbn [step].
  - intro Hc'. injection Hc' as <-. rewrite live_click. cbn. lia.
  - intro Hc'. injection Hc' as <-. destruct i; cbn [edit]; live; cbn; lia.
  - intro Hc'. apply live_frame in Hc'. cbn. lia.
  - apply live_settle.
Qed.

(** Along every run the number of live loops grows by at most the number
    of loops started. *)
Lemma live_run evs : forall (c c' : Config),
  run c evs = Some c' -> live_loops c' <= live_loops c + loop_starts c evs.
Proof.
  induction evs as [|ev evs IH]; intros c c' Hrun; cbn [run] in Hrun.
  - injection Hrun as <-. cbn. lia.
  - cbn [loop_starts].
    destruct (step c ev) as [c1|] eqn:Hstep; [|discriminate].
    pose proof (live_step c c1 ev Hstep). specialize (IH c1 c' Hrun). lia.
Qed.

(** *** The detection call returns *)

Lemma detection_resolved (c : Config) n k v h :
  nth_error (pending c) n = Some k ->
  is_detection k = true ->
  resume k (Resolved v) = Some h ->
  exists c', settle n (Resolved v) c = Some c'
    /\ pending c' = remove_at n (pending c)
    /\ frames c' = S (frames c)
    /\ trace c' = (trace c ++ [requestAnimationFrame])%list
    /\ isLoopRunning (st c') = isLoopRunning (st c).
Proof.
  intros Hk Hdet Hh. unfold settle. rewrite Hk, Hh.
  eexists. split; [reflexivity|].
  destruct k; try discriminate; destruct v; try discriminate;
    cbn [resume] in Hh; injection Hh as <-.
  - repeat split.
  - unfold streamLoop_verify_resume.
    destruct display_base64 as [img|]; [destruct (truthy img)|];
      repeat split.
Qed.

Lemma nth_error_last {A : Type} (l : list A) k :
  nth_error (l ++ [k]) (List.length l) = Some k.
Proof.
  rewrite nth_error_app2 by lia. now rewrite Nat.sub_diag.
Qed.

Lemma remove_at_last {A : Type} (l : list A) k :
  remove_at (List.length l) (l ++ [k]) = l.
Proof.
  unfold remove_at. rewrite firstn_app, Nat.sub_diag, firstn_all.
  rewrite skipn_all2 by (rewrite length_app; simpl; lia).
  cbn [firstn]. now rewrite !app_nil_r.
Qed.

Lemma swallowed_rounds_messages s (errs : list error) :
  messages (swallowed_rounds s errs) = [].
Proof.
  induction errs as [|e errs IH]; [reflexivity|]. exact IH.
Qed.

Lemma swallowed_rounds_reschedules s (errs : list error) :
  reschedules (swallowed_rounds s errs) = List.length errs.
Proof.
  unfold reschedules.
  induction errs as [|e errs IH]; [reflexivity|].
  cbn [swallowed_rounds flat_map app filter is_reschedule List.length].
  f_equal. exact IH.
Qed.

Lemma swallowed_rounds_calls s (errs : list error) :
  detection_calls (swallowed_rounds s errs) = List.length errs.
Proof.
  unfold detection_calls, swallowed_rounds, detection_command.
  destruct (verificationMode s);
    induction errs as [|e errs IH]; cbn in *; try rewrite IH; reflexivity.
Qed.

Lemma no_face_round (c : Config) n k e :
  nth_error (pending c) n = Some k ->
  is_detection k = true ->
  isLoopRunning (st c) = true ->
  no_face e = true ->
  run c [Settle n (Rejected e); Frame]
  = Some {| st := st c;
            pending := remove_at n (pending c) ++ [detection_site (st c)];
            frames := frames c;
            trace := (trace c ++ [requestAnimationFrame])
                     ++ [Invoke (detection_command (st c))] |}.
Proof.
  intros Hk Hdet Hrun Hnf. cbn [FaceAdd.run FaceAdd.step].
  unfold FaceAdd.settle. rewrite Hk.
  assert (Hres : resume k (Rejected e) = Some (streamLoop_catch e))
    by (destruct k; try discriminate; reflexivity).
  rewrite Hres. unfold FaceAdd.streamLoop_catch.
  unfold FaceAdd.no_face in Hnf. rewrite Hnf.
  unfold schedule_streamLoop, frame. cbn [st pending frames trace].
  now rewrite streamLoop_running by exact Hrun.
Qed.

Lemma remove_at_length {A : Type} (l : list A) n k :
  nth_error l n = Some k ->
  List.length (remove_at n l) = List.length l - 1.
Proof.
  intro Hk. unfold remove_at.
  assert (Hn : n < List.length l)
    by (apply nth_error_Some; congruence).
  rewrite length_app, length_firstn, length_skipn. lia.
Qed.

Lemma run_app (c : Config) evs1 evs2 :
  run c (evs1 ++ evs2)
  = match run c evs1 with
    | Some c1 => run c1 evs2
    | None => None
    end.
Proof.
  revert c. induction evs1 as [|ev evs1 IH]; intro c; [reflexivity|].
  cbn [run app]. destruct (step c ev); [apply IH | reflexivity].
Qed.

Lemma ui_run_run (evs : list (Event error)) : forall (c c' : Config),
  ui_run formatObjectString c evs = Some c' -> run c evs = Some c'.
Proof.
  induction evs as [|ev evs IH]; intros c c'; cbn [ui_run FaceAdd.run].
  - trivial.
  - destruct (admitted c ev); [|discriminate].
    destruct (step c ev) as [c1|]; [apply IH | discriminate].
Qed.

(** The rounds when the call of the loop is the promise sent last. *)
Lemma no_face_rounds (errs : list error) :
  forall (c : Config) before k,
  pending c = (before ++ [k])%list ->
  is_detection k = true ->
  isLoopRunning (st c) = true ->
  Forall (fun e => no_face e = true) errs ->
  exists c' k',
    run c (rejected_ticks (List.length before) errs) = Some c'
    /\ st c' = st c
    /\ isLoopRunning (st c') = true
    /\ pending c' = (before ++ [k'])%list /\ is_detection k' = true
    /\ frames c' = frames c
    /\ trace c' = (trace c ++ swallowed_rounds (st c) errs)%list
    /\ messages (trace c') = messages (trace c)
    /\ reschedules (trace c') = reschedules (trace c) + List.length errs
    /\ detection_calls (trace c')
       = detection_calls (trace c) + List.length errs.
Proof.
  induction errs as [|e errs IH]; intros c before k Hp Hdet Hrun Hall.
  - exists c, k. cbn [rejected_ticks flat_map run swallowed_rounds].
    rewrite app_nil_r. repeat split; auto.
  - inversion Hall as [|? ? He Herrs]; subst.
    assert (Hk : nth_error (pending c) (List.length before) = Some k)
      by (rewrite Hp; apply nth_error_last).
    pose proof (no_face_round c _ k e Hk Hdet Hrun He) as Hround.
    rewrite Hp, remove_at_last in Hround.
    set (c1 := {| st := st c;
                  pending := before ++ [detection_site (st c)];
                  frames := frames c;
                  trace := (trace c ++ [requestAnimationFrame])
                           ++ [Invoke (detection_command (st c))] |})
      in Hround.
    destruct (IH c1 before (detection_site (st c)) eq_refl
                (detection_site_is_detection _) Hrun Herrs)
      as (c' & k' & Hrun' & Hst & Hflag & Hpend & Hk' & Hfr & Htr & _).
    assert (Htrace :
      trace c' = (trace c ++ swallowed_rounds (st c) (e :: errs))%list).
    { rewrite Htr. cbn [trace c1 st swallowed_rounds flat_map].
      now rewrite <- !app_assoc. }
    exists c', k'.
    change (rejected_ticks (List.length before) (e :: errs))
      with ([Settle (List.length before) (Rejected e); Frame]
            ++ rejected_ticks (List.length before) errs)%list.
    rewrite run_app, Hround.
    repeat split; auto.
    + rewrite Htrace. unfold messages. rewrite filter_app.
      fold (messages (swallowed_rounds (st c) (e :: errs))).
      now rewrite swallowed_rounds_messages, app_nil_r.
    + rewrite Htrace. unfold reschedules. rewrite filter_app, length_app.
      fold (reschedules (swallowed_rounds (st c) (e :: errs))).
      now rewrite swallowed_rounds_reschedules.
    + rewrite Htrace. unfold detection_calls.
      rewrite filter_app, length_app.
      fold (detection_calls (swallowed_rounds (st c) (e :: errs))).
      now rewrite swallowed_rounds_calls.
Qed.

(** C6.  While the detection call of a running loop is rejected with the
    no-face signature, any number of times in a row, every round is
    swallowed: the tick is rescheduled once per rejection, one new detection
    call is sent each time, no message is shown, the state is untouched (so
    the loop flag stays set), and the loop ends the run with its call in
    flight. *)
Theorem no_face_swallowed (errs : list error) (c : Config) n k :
  nth_error (pending c) n = Some k ->
  is_detection k = true ->
  isLoopRunning (st c) = true ->
  Forall (fun e => no_face e = true) errs ->
  exists c',
    run c (no_face_run c n errs) = Some c'
    /\ st c' = st c
    /\ isLoopRunning (st c') = true
    /\ in_flight c' = in_flight c
    /\ frames c' = frames c
    /\ trace c' = (trace c ++ swallowed_rounds (st c) errs)%list
    /\ messages (trace c') = messages (trace c)
    /\ reschedules (trace c') = reschedules (trace c) + List.length errs
    /\ detection_calls (trace c')
       = detection_calls (trace c) + List.length errs.
Proof.
  intros Hk Hdet Hrun Hall.
  destruct errs as [|e errs].
  - exists c. cbn [no_face_run FaceAdd.run swallowed_rounds flat_map].
    rewrite app_nil_r. repeat split; auto.
  - inversion Hall as [|? ? He Herrs]; subst.
    pose proof (no_face_round c n k e Hk Hdet Hrun He) as Hround.
    set (c1 := {| st := st c;
                  pending := remove_at n (pending c)
                             ++ [detection_site (st c)];
                  frames := frames c;
                  trace := (trace c ++ [requestAnimationFrame])
                           ++ [Invoke (detection_command (st c))] |})
      in Hround.
    destruct (no_face_rounds errs c1 (remove_at n (pending c))
                (detection_site (st c)) eq_refl
                (detection_site_is_detection _) Hrun Herrs)
      as (c' & k' & Hrun' & Hst & Hflag & Hpend & Hk' & Hfr & Htr & _).
    rewrite (remove_at_length _ n k Hk) in Hrun'.
    assert (Htrace :
      trace c' = (trace c ++ swallowed_rounds (st c) (e :: errs))%list).
    { rewrite Htr. cbn [trace c1 st swallowed_rounds flat_map].
      now rewrite <- !app_assoc. }
    exists c'.
    change (no_face_run c n (e :: errs))
      with ([Settle n (Rejected e); Frame]
            ++ rejected_ticks (List.length (pending c) - 1) errs)%list.
    rewrite run_app, Hround.
    repeat split; auto.
    + unfold in_flight. rewrite Hpend, filter_app, length_app.
      cbn [filter]. rewrite Hk'. cbn [List.length].
      rewrite (filter_remove_at is_detection _ n k Hk), Hdet. reflexivity.
    + rewrite Htrace. unfold messages. rewrite filter_app.
      fold (messages (swallowed_rounds (st c) (e :: errs))).
      now rewrite swallowed_rounds_messages, app_nil_r.
    + rewrite Htrace. unfold reschedules. rewrite filter_app, length_app.
      fold (reschedules (swallowed_rounds (st c) (e :: errs))).
      now rewrite swallowed_rounds_reschedules.
    + rewrite Htrace. unfold detection_calls.
      rewrite filter_app, length_app.
      fold (detection_calls (swallowed_rounds (st c) (e :: errs))).
      now rewrite swallowed_rounds_calls.
Qed.

(** One loop, as long as no other is started.  A tick tests the loop flag
    before anything else and exits when it is cleared; otherwise it sends exactly one detection call and schedules
    nothing.  The next tick is scheduled when that call returns, also when
    the flag was cleared in the meantime: the result is applied and the
    stop takes effect at the tick that follows.  Hence the live loops of a
    run never exceed those at its start plus the loops started on the way,
    and one loop has at most one detection call in flight. *)
Theorem single_flight (c : Config) :
  (isLoopRunning (st c) = false -> streamLoop c = c)
  /\ (isLoopRunning (st c) = true ->
      streamLoop c =
      {| st := st c; pending := pending c ++ [detection_site (st c)];
         frames := frames c;
         trace := trace c ++ [Invoke (detection_command (st c))] |})
  /\ (forall n k v h,
        nth_error (pending c) n = Some k -> is_detection k = true ->
        resume k (Resolved v) = Some h ->
        exists c', settle n (Resolved v) c = Some c'
          /\ pending c' = remove_at n (pending c)
          /\ frames c' = S (frames c)
          /\ trace c' = (trace c ++ [requestAnimationFrame])%list
          /\ isLoopRunning (st c') = isLoopRunning (st c))
  /\ (forall n,
        isLoopRunning (st c) = false -> frames c = S n ->
        step c Frame
        = Some {| st := st c; pending := pending c; frames := n;
                  trace := trace c |})
  /\ (forall evs c',
        run c evs = Some c' ->
        live_loops c' <= live_loops c + loop_starts c evs)
  /\ (forall evs c',
        live_loops c <= 1 -> loop_starts c evs = 0 ->
        run c evs = Some c' -> in_flight c' <= 1).
Proof.
  split; [apply streamLoop_stopped|].
  split; [apply streamLoop_running|].
  split; [apply detection_resolved|].
  split; [|split].
  - intros n Hstop Hn. cbn [step]. unfold frame. rewrite Hn.
    now rewrite streamLoop_stopped by exact Hstop.
  - intros evs c'. apply live_run.
  - intros evs c' Hone Hnone Hrun.
    pose proof (live_run evs c c' Hrun) as Hlive.
    unfold live_loops in Hlive at 1. lia.
Qed.

(** *** A detection call fails *)

(** C2, amended.  An error of the detection call without the no-face
    signature is shown to the user and ends the loop: no tick is scheduled,
    no call is sent, and the state, the loop flag included, stays as it
    was. *)
Theorem generic_error_ends_loop (c : Config) n k e :
  nth_error (pending c) n = Some k ->
  is_detection k = true ->
  no_face e = false ->
  exists c',
    settle n (Rejected e) c = Some c'
    /\ st c' = st c
    /\ pending c' = remove_at n (pending c)
    /\ frames c' = frames c
    /\ trace c'
       = (trace c ++ [ElMessage error_level (formatObjectString e)])%list
    /\ reschedules (trace c') = reschedules (trace c)
    /\ live_loops c' + 1 = live_loops c.
Proof.
  intros Hk Hdet Hnf. unfold settle. rewrite Hk.
  assert (Hres : resume k (Rejected e) = Some (streamLoop_catch e))
    by (destruct k; try discriminate; reflexivity).
  rewrite Hres. unfold FaceAdd.streamLoop_catch.
  unfold no_face in Hnf. rewrite Hnf.
  eexists. split; [reflexivity|]. repeat split.
  - cbn [trace emit]. unfold reschedules.
    rewrite filter_app, length_app. cbn. lia.
  - rewrite live_emit, (live_removed c n k Hk), Hdet. reflexivity.
Qed.

End Loop.

End LoopFacts.

(** ** The session controller *)
Module SessionFacts.
Import JsNum JsStr FaceAdd Stated JsStrFacts LoopFacts.

Section Session.
Context {error : Type} (formatObjectString : error -> string).
Context `{Rounding}.

Abbreviation Config := (Config error).
Abbreviation settle := (settle formatObjectString).
Abbreviation resume := (resume formatObjectString).

(** The promise sent last settles. *)
Lemma settle_last (c : Config) before k r h :
  pending c = (before ++ [k])%list ->
  resume k r = Some h ->
  settle (List.length before) r c
  = Some (h {| st := st c; pending := before; frames := frames c;
               trace := trace c |}).
Proof.
  intros Hp Hh. unfold FaceAdd.settle.
  now rewrite Hp, nth_error_last, remove_at_last, Hh.
Qed.

(** *** [stopCapture] *)

(** C3, amended.  [stopCapture] clears the loop flag at once and sends
    [stop_camera].  When the release succeeds, both images and the streaming
    flag are cleared.  When it fails, the error is shown and nothing else
    changes: the loop flag stays cleared, the images and the streaming flag
    stay as they were, and so do the controls the template shows. *)
Theorem stopCapture_outcomes (c : Config) :
  stopCapture c
  = {| st := set_isLoopRunning false (st c);
       pending := pending c ++ [at_stopCapture]; frames := frames c;
       trace := trace c ++ [Invoke stop_camera] |}
  /\ (forall v,
        settle (List.length (pending c)) (Resolved v) (stopCapture c)
        = Some {| st := set_rawImageForSystem ""
                          (set_capturedImage ""
                             (set_isCameraStreaming false
                                (set_isLoopRunning false (st c))));
                  pending := pending c; frames := frames c;
                  trace := trace c ++ [Invoke stop_camera] |})
  /\ (forall e,
        settle (List.length (pending c)) (Rejected e) (stopCapture c)
        = Some {| st := set_isLoopRunning false (st c);
                  pending := pending c; frames := frames c;
                  trace := trace c
                           ++ [Invoke stop_camera;
                               ElMessage error_level (formatObjectString e);
                               console_error e] |})
  /\ (forall b,
        rendered (set_isLoopRunning false (st c)) b = rendered (st c) b).
Proof.
  split; [reflexivity|]. split; [|split; [|now intros []]].
  - intro v. now rewrite (settle_last (stopCapture c) (pending c)
                            at_stopCapture (Resolved v) _ eq_refl eq_refl).
  - intro e. rewrite (settle_last (stopCapture c) (pending c)
                        at_stopCapture (Rejected e) _ eq_refl eq_refl).
    cbn. unfold report, then_do, emit. cbn [st pending frames trace].
    now rewrite <- !app_assoc.
Qed.

(** *** [toggleVerification] *)

Lemma toggle_on (c : Config) :
  verificationMode (st c) = false ->
  toggleVerification c
  = {| st := set_verificationMode true (st c);
       pending := pending c ++ [at_toggleVerification_open];
       frames := frames c;
       trace := trace c ++ [Invoke open_camera] |}.
Proof.
  intro Hoff. unfold toggleVerification. cbv zeta.
  cbn [update st verificationMode set_verificationMode]. now rewrite Hoff.
Qed.


(** C10, amended.  Entering verify mode, the mode flag is already set
    when [open_camera] is sent, and the rejection of that call only shows
    the error: the flag stays set, the loop flag and the loops are left as
    they were, so no loop is running afterwards if none was before. *)
Theorem toggle_on_not_rolled_back (c : Config) :
  verificationMode (st c) = false ->
  verificationMode (st (toggleVerification c)) = true
  /\ trace (toggleVerification c) = (trace c ++ [Invoke open_camera])%list
  /\ forall e, exists c',
       settle (List.length (pending c)) (Rejected e) (toggleVerification c)
       = Some c'
       /\ st c' = set_verificationMode true (st c)
       /\ verificationMode (st c') = true
       /\ isLoopRunning (st c') = isLoopRunning (st c)
       /\ pending c' = pending c
       /\ frames c' = frames c
       /\ live_loops c' = live_loops c
       /\ trace c'
          = (trace c
             ++ [Invoke open_camera;
                 ElMessage error_level (formatObjectString e);
                 console_error e])%list
       /\ (isLoopRunning (st c) = false -> live_loops c = 0 ->
           isLoopRunning (st c') = false /\ live_loops c' = 0).
Proof.
  intro Hoff. rewrite (toggle_on c Hoff). repeat split.
  intro e. eexists.
  match goal with
  | |- context [FaceAdd.settle _ _ _ ?c1] =>
      rewrite (settle_last c1 (pending c) at_toggleVerification_open
                 (Rejected e) _ eq_refl eq_refl)
  end.
  split; [reflexivity|]. do 6 (split; [reflexivity|]). split.
  - cbn. unfold report, then_do, emit. cbn [st pending frames trace].
    now rewrite <- !app_assoc.
  - intros Hidle Hnone. split; [exact Hidle | exact Hnone].
Qed.

(** *** [startCamera] *)

(** [startCamera] has no guard of its own: in every state it sends
    [open_camera], and a rejection is shown to the user and leaves the
    state and the loops as they were.  What stands before it is the
    template, which does not show the start control while the camera is
    streaming or verify mode is on. *)
Theorem startCamera_unguarded (c : Config) :
  startCamera c
  = {| st := st c; pending := pending c ++ [at_startCamera];
       frames := frames c; trace := trace c ++ [Invoke open_camera] |}
  /\ (forall e,
        settle (List.length (pending c)) (Rejected e) (startCamera c)
        = Some {| st := st c; pending := pending c; frames := frames c;
                  trace := trace c
                           ++ [Invoke open_camera;
                               ElMessage error_level (formatObjectString e);
                               console_error e] |})
  /\ (rendered (st c) StartCamera = true <->
      verificationMode (st c) = false /\ isCameraStreaming (st c) = false).
Proof.
  split; [reflexivity|]. split.
  - intro e. rewrite (settle_last (startCamera c) (pending c)
                        at_startCamera (Rejected e) _ eq_refl eq_refl).
    cbn. unfold report, then_do, emit. cbn [st pending frames trace].
    now rewrite <- !app_assoc.
  - cbn [rendered]. now rewrite andb_true_iff, !negb_true_iff.
Qed.

(** *** [handleSave] *)

Lemma or_else_empty a : or_else a "" = a.
Proof.
  unfold or_else. destruct (truthy a) eqn:E; [reflexivity|].
  symmetry. now apply truthy_false.
Qed.

Lemma truthy_true s : s <> "" -> truthy s = true.
Proof.
  intro Hs. destruct (truthy s) eqn:E; [reflexivity|].
  apply truthy_false in E. contradiction.
Qed.

(** C9.  With an empty user name, an empty password or an empty raw image
    [handleSave] shows a warning and sends nothing to the backend; otherwise
    it sends [save_face_registration] with the alias as it is, the empty
    alias included. *)
Theorem handleSave_validation (c : Config) :
  (username (authForm (st c)) = "" \/ password (authForm (st c)) = ""
   \/ rawImageForSystem (st c) = "" ->
   exists text,
     handleSave c
     = {| st := st c; pending := pending c; frames := frames c;
          trace := trace c ++ [ElMessage warning text] |})
  /\ (username (authForm (st c)) <> "" ->
      password (authForm (st c)) <> "" ->
      rawImageForSystem (st c) <> "" ->
      handleSave c
      = {| st := set_isProcessing true (st c);
           pending := pending c ++ [at_handleSave]; frames := frames c;
           trace := trace c
                    ++ [Invoke (save_face_registration
                                  (faceName (st c))
                                  (after_comma (rawImageForSystem (st c))))]
        |})
  /\ (username (authForm (st c)) <> "" ->
      password (authForm (st c)) <> "" ->
      rawImageForSystem (st c) <> "" ->
      faceName (st c) = "" ->
      trace (handleSave c)
      = (trace c
         ++ [Invoke (save_face_registration ""
                       (after_comma (rawImageForSystem (st c))))])%list).
Proof.
  assert (Hsave :
    username (authForm (st c)) <> "" ->
    password (authForm (st c)) <> "" ->
    rawImageForSystem (st c) <> "" ->
    handleSave c
    = {| st := set_isProcessing true (st c);
         pending := pending c ++ [at_handleSave]; frames := frames c;
         trace := trace c
                  ++ [Invoke (save_face_registration
                                (faceName (st c))
                                (after_comma (rawImageForSystem (st c))))]
      |}).
  { intros Hu Hp Hr. unfold handleSave.
    rewrite (truthy_true _ Hu), (truthy_true _ Hp), (truthy_true _ Hr).
    cbn [negb orb]. now rewrite or_else_empty. }
  split; [|split].
  - intro Hempty. unfold handleSave.
    destruct (negb (truthy (username (authForm (st c))))
              || negb (truthy (password (authForm (st c))))) eqn:Hcred.
    + eexists. reflexivity.
    + destruct (negb (truthy (rawImageForSystem (st c)))) eqn:Hraw.
      * eexists. reflexivity.
      * exfalso. apply orb_false_iff in Hcred. destruct Hcred as [Hu Hp].
        apply negb_false_iff in Hu, Hp, Hraw.
        destruct Hempty as [E|[E|E]]; rewrite E in *; discriminate.
  - exact Hsave.
  - intros Hu Hp Hr Halias. rewrite (Hsave Hu Hp Hr). cbn [trace].
    now rewrite Halias.
Qed.

End Session.

End SessionFacts.

(** ** Sessions replayed

    The sessions of [Replay], run with exact arithmetic. *)
Module Sessions.
Import JsNum JsStr FaceAdd Stated Replay JsNumFacts LoopFacts SessionFacts.

Example streaming_reached :
  ui_run show initial [Click StartCamera; Settle 1 (Resolved VVoid)]
  = Some streaming.
Proof. reflexivity. Qed.

(** The start control is still shown until [open_camera] resolves: a
    second click in between starts a second loop. *)
Example started_twice :
  exists c',
    ui_run show initial
      [Click StartCamera; Click StartCamera;
       Settle 1 (Resolved VVoid); Settle 1 (Resolved VVoid)]
    = Some c'
    /\ in_flight c' = 2.
Proof. eexists. split; reflexivity. Qed.

Example captured_reached :
  ui_run show initial
    [Settle 0 (Resolved (VUser 200 "alice"));
     Edit (input_authForm account);
     Click SelectFile;
     Settle 0 (Resolved (VPath (Some "face.png")));
     Settle 0 (Resolved (VFace frame_shown frame_kept))]
  = Some captured.
Proof. reflexivity. Qed.

(** *** Where the specification and the component part *)

(** C2 fails: the capture loop is running, its detection call is rejected
    with an error that is not the no-face one; the error is shown and no
    tick is scheduled, so the loop is over while both flags stay set. *)
Lemma generic_error_counterexample :
  run show initial
    [Click StartCamera; Settle 1 (Resolved VVoid);
     Settle 1 (Rejected "camera disconnected")]
  = Some {| st := st streaming; pending := [at_setup]; frames := 0;
            trace := trace streaming
                     ++ [ElMessage error_level "camera disconnected"] |}
  /\ ~ generic_error_reschedules show.
Proof.
  split; [reflexivity|]. intro Hclaim.
  destruct (Hclaim streaming 1 at_streamLoop_capture "camera disconnected"
              eq_refl eq_refl eq_refl eq_refl) as (c' & Hc' & _ & Hframes).
  vm_compute in Hc'. injection Hc' as <-. discriminate Hframes.
Qed.

(** C3 fails: a frame is on display, the capture is cancelled and the
    release is rejected; both images and the streaming flag survive. *)
Lemma cancel_failure_counterexample :
  (exists c',
     run show streaming
       [Settle 1 (Resolved (VFace frame_shown frame_kept));
        Click StopCapture; Settle 1 (Rejected "release failed")]
     = Some c'
     /\ capturedImage (st c') = frame_shown
     /\ rawImageForSystem (st c') = frame_kept
     /\ isCameraStreaming (st c') = true
     /\ isLoopRunning (st c') = false)
  /\ ~ cancel_always_clears show.
Proof.
  split.
  - eexists. split; [reflexivity|]. repeat split.
  - intro Hclaim.
    destruct (Hclaim streaming _ (Rejected "release failed") eq_refl)
      as (_ & _ & _ & Hcam).
    discriminate Hcam.
Qed.

(** *** The theorems at work *)

Lemma no_face_swallowed_witness :
  exists c',
    run show streaming (no_face_run streaming 1 five_misses) = Some c'
    /\ isLoopRunning (st c') = true
    /\ in_flight c' = 1
    /\ messages (trace c') = []
    /\ reschedules (trace c') = 5.
Proof.
  assert (Hmiss : Forall (fun e => no_face show e = true) five_misses)
    by (repeat constructor).
  destruct (no_face_swallowed show five_misses streaming 1
              at_streamLoop_capture eq_refl eq_refl eq_refl Hmiss)
    as (c' & Hrun & _ & Hflag & Hfly & _ & _ & Hmsg & Hres & _).
  exists c'. repeat split; assumption.
Defined.

Lemma single_flight_witness :
  exists c',
    run show streaming confirm_round = Some c'
    /\ in_flight c' <= 1
    /\ isCameraStreaming (st c') = false.
Proof.
  destruct (single_flight show streaming) as (_ & _ & _ & _ & _ & Hone).
  eexists. split; [reflexivity|]. split; [|reflexivity].
  apply (Hone confirm_round); [vm_compute; lia | reflexivity | reflexivity].
Defined.

Lemma generic_error_ends_loop_witness :
  exists c',
    settle show 1 (Rejected "camera disconnected") streaming = Some c'
    /\ frames c' = 0
    /\ live_loops c' + 1 = live_loops streaming.
Proof.
  destruct (generic_error_ends_loop show streaming 1 at_streamLoop_capture
              "camera disconnected" eq_refl eq_refl eq_refl)
    as (c' & Hc' & _ & _ & Hframes & _ & _ & Hlive).
  exists c'. repeat split; assumption.
Defined.


Lemma toggle_on_not_rolled_back_witness :
  exists c',
    settle show 0 (Rejected "camera busy") (toggleVerification captured)
    = Some c'
    /\ verificationMode (st c') = true
    /\ isLoopRunning (st c') = false
    /\ live_loops c' = 0.
Proof.
  destruct (toggle_on_not_rolled_back show captured eq_refl)
    as (_ & _ & Hfail).
  destruct (Hfail "camera busy")
    as (c' & Hc' & _ & Hmode & Hloop & _ & _ & Hlive & _).
  exists c'. repeat split; assumption.
Defined.

Lemma handleSave_validation_witness :
  trace (handleSave captured)
  = (trace captured ++ [Invoke (save_face_registration "" (Some "BBBB"))])%list
  /\ exists text,
       handleSave (@initial string)
       = emit (ElMessage warning text) initial.
Proof.
  split.
  - destruct (handleSave_validation captured) as (_ & _ & Halias).
    apply Halias; [discriminate | discriminate | discriminate | reflexivity].
  - destruct (handleSave_validation (@initial string)) as (Hwarn & _).
    destruct (Hwarn (or_introl eq_refl)) as (text & Htext).
    exists text. exact Htext.
Defined.

Lemma stopCapture_outcomes_witness :
  exists c',
    settle show 2 (Resolved VVoid) (stopCapture streaming) = Some c'
    /\ capturedImage (st c') = "" /\ rawImageForSystem (st c') = ""
    /\ isCameraStreaming (st c') = false /\ isLoopRunning (st c') = false.
Proof.
  destruct (stopCapture_outcomes show streaming) as (_ & Hok & _).
  eexists. split; [exact (Hok VVoid)|]. repeat split.
Defined.

Lemma startCamera_unguarded_witness :
  rendered (st streaming) StartCamera = false
  /\ in_flight (startCamera streaming) = in_flight streaming.
Proof.
  destruct (startCamera_unguarded show streaming) as (Hsend & _ & Hgate).
  split; [|now rewrite Hsend].
  destruct (rendered (st streaming) StartCamera); [|reflexivity].
  destruct (proj1 Hgate eq_refl) as [_ E]. discriminate E.
Defined.

End Sessions.

(** ** The range of the confidence *)
Module ScorerBounds.
Import JsNum JsStr FaceAdd Stated JsNumFacts ScorerFacts.
Local Open Scope Q_scope.

Section Bounds.
Context `{Rounding}.

Lemma le_refl_fin q : le (Fin q) (Fin q).
Proof. simpl. apply Qle_refl. Qed.

Lemma le_trans a b c : le a b -> le b c -> le a c.
Proof.
  destruct a as [| | |x], b as [| | |y], c as [| | |z]; simpl; try tauto.
  apply Qle_trans.
Qed.

Lemma floor_mono a b : le a b -> le (floor a) (floor b).
Proof.
  destruct a as [| | |x], b as [| | |y]; simpl; try tauto.
  intro Hxy. rewrite <- Zle_Qle. now apply Qfloor_resp_le.
Qed.

Lemma min_mono a b : le a b -> le (min (of_Z 100) a) (min (of_Z 100) b).
Proof.
  destruct a as [| | |x], b as [| | |y]; simpl; try tauto.
  - intros _. apply Qle_refl.
  - intros _. now destruct (Qltb y (inject_Z 100)).
  - intros _. destruct (Qltb x (inject_Z 100)) eqn:E; simpl.
    + apply Qltb_lt in E. now apply Qlt_le_weak.
    + apply Qle_refl.
  - intro Hxy.
    destruct (Qltb x (inject_Z 100)) eqn:Ex,
             (Qltb y (inject_Z 100)) eqn:Ey; simpl.
    + exact Hxy.
    + apply Qltb_lt in Ex. now apply Qlt_le_weak.
    + apply Qltb_ge in Ex. apply Qltb_lt in Ey. exfalso.
      apply (Qlt_not_le _ _ Ey). now apply Qle_trans with x.
    + apply Qle_refl.
Qed.

Lemma scaled_mono x y :
  (x <= y)%Q -> le (round (x * inject_Z 100)) (round (y * inject_Z 100)).
Proof.
  intro Hxy. apply round_mono.
  apply Qmult_le_compat_r; [exact Hxy | discriminate].
Qed.

Lemma scaled_nonneg q :
  round (inject_Z 0) = of_Z 0 -> (0 < q)%Q ->
  le (of_Z 0) (round (q * inject_Z 100)).
Proof.
  intros Hzero Hq. rewrite <- Hzero.
  assert (E : round (inject_Z 0) = round (0 * inject_Z 100))
    by (apply round_value; ring).
  rewrite E. apply scaled_mono. now apply Qlt_le_weak.
Qed.

(** The value of the scorer above zero, in one piece. *)
Definition scaled (q : Q) : number :=
  floor (min (of_Z 100) (round (q * inject_Z 100))).

Lemma confidence_scaled q :
  round q = Fin q -> (0 < q)%Q -> confidence (Fin q) = scaled q.
Proof.
  intros Hr Hq. now rewrite (confidence_positive q Hr Hq).
Qed.

Lemma scaled_range q :
  round (inject_Z 0) = of_Z 0 -> (0 < q)%Q ->
  exists z, scaled q = of_Z z /\ (0 <= z <= 100)%Z.
Proof.
  intros Hzero Hq. unfold scaled.
  pose proof (scaled_nonneg q Hzero Hq) as Hlow.
  destruct (round (q * inject_Z 100)) as [| | |a]; simpl in Hlow;
    try contradiction.
  - exists 100%Z. split; [reflexivity | lia].
  - cbn [min of_Z lt]. destruct (Qltb a (inject_Z 100)) eqn:E.
    + exists (Qfloor a). split; [reflexivity|].
      apply Qltb_lt in E. split.
      * change 0%Z with (Qfloor (inject_Z 0)). now apply Qfloor_resp_le.
      * change 100%Z with (Qfloor (inject_Z 100)).
        apply Qfloor_resp_le. now apply Qlt_le_weak.
    + exists 100%Z. split; [reflexivity | lia].
Qed.

Lemma confidence_in_range (rawScore : number) :
  round (inject_Z 0) = of_Z 0 ->
  representable rawScore ->
  exists z, confidence rawScore = of_Z z /\ (0 <= z <= 100)%Z.
Proof.
  intros Hzero Hrep.
  destruct (gt rawScore (of_Z 0)) eqn:Hgt.
  - destruct rawScore as [| | |q]; try discriminate.
    + exists 100%Z. split; [reflexivity | lia].
    + simpl in Hrep. unfold gt in Hgt. cbn [lt of_Z] in Hgt.
      apply Qltb_lt in Hgt.
      rewrite (confidence_scaled q Hrep Hgt). now apply scaled_range.
  - exists 0%Z. split; [|lia]. unfold confidence. now rewrite Hgt.
Qed.

(** X1.  With zero representable, the confidence of every representable
    score, [NaN] and the infinite ones included, is a whole percentage
    between 0 and 100. *)
Theorem confidence_range (rawScore : number) :
  round (inject_Z 0) = of_Z 0 ->
  representable rawScore ->
  exists z, confidence rawScore = of_Z z /\ (0 <= z <= 100)%Z.
Proof. apply confidence_in_range. Qed.

(** X2.  The confidence grows with the score: of two representable scores
    the larger never has the smaller confidence. *)
Theorem confidence_monotone (s1 s2 : number) :
  round (inject_Z 0) = of_Z 0 ->
  representable s1 -> representable s2 ->
  le s1 s2 -> le (confidence s1) (confidence s2).
Proof.
  intros Hzero H1 H2 Hle.
  destruct (gt s1 (of_Z 0)) eqn:Hg1.
  - (* both above zero *)
    destruct s1 as [| | |x]; try discriminate.
    + destruct s2 as [| | |y]; simpl in Hle; try contradiction.
      simpl. apply Qle_refl.
    + unfold gt in Hg1. cbn [lt of_Z] in Hg1. apply Qltb_lt in Hg1.
      simpl in H1. rewrite (confidence_scaled x H1 Hg1).
      destruct s2 as [| | |y]; simpl in Hle; try contradiction.
      * destruct (scaled_range x Hzero Hg1) as (z & -> & Hz).
        change (confidence PosInf) with (of_Z 100).
        simpl. rewrite <- Zle_Qle. lia.
      * assert (Hy : (0 < y)%Q) by (now apply Qlt_le_trans with x).
        simpl in H2. rewrite (confidence_scaled y H2 Hy).
        apply floor_mono, min_mono, scaled_mono. exact Hle.
  - (* the smaller score is at most zero *)
    assert (E1 : confidence s1 = of_Z 0)
      by (unfold confidence; now rewrite Hg1).
    rewrite E1. clear E1.
    destruct s1 as [| | |x]; try (simpl in Hle; contradiction);
      try discriminate Hg1.
    + destruct s2 as [| | |y]; try (simpl in Hle; contradiction);
        destruct (confidence_in_range _ Hzero H2) as (z & -> & Hz);
        simpl; rewrite <- Zle_Qle; lia.
    + destruct s2 as [| | |y]; try (simpl in Hle; contradiction);
        destruct (confidence_in_range _ Hzero H2) as (z & -> & Hz);
        simpl; rewrite <- Zle_Qle; lia.
Qed.

(** X3.  A threshold of 100 or more is never exceeded: with the slider at
    its maximum no sample is classified as a match, whatever the score. *)
Theorem full_threshold_never_matches (rawScore : number) (t : Q) :
  round (inject_Z 0) = of_Z 0 ->
  representable rawScore ->
  (inject_Z 100 <= t)%Q ->
  classify (confidence rawScore) (Fin t) = mismatch.
Proof.
  intros Hzero Hrep Ht.
  destruct (confidence_in_range rawScore Hzero Hrep) as (z & -> & Hz).
  unfold classify, gt, of_Z. cbn [lt].
  assert (Hle : (inject_Z z <= t)%Q).
  { apply Qle_trans with (inject_Z 100); [|exact Ht].
    rewrite <- Zle_Qle. lia. }
  apply Qltb_ge in Hle. now rewrite Hle.
Qed.

End Bounds.

Lemma confidence_range_witness :
  exists z, confidence (Fin (57 # 100)) = of_Z z /\ (0 <= z <= 100)%Z.
Proof.
  apply (confidence_range (Fin (57 # 100))); reflexivity.
Defined.

Lemma confidence_monotone_witness :
  le (confidence (Fin (21 # 50))) (confidence (Fin (91 # 100))).
Proof.
  apply (confidence_monotone (Fin (21 # 50)) (Fin (91 # 100)));
    try reflexivity.
  discriminate.
Defined.

Lemma full_threshold_never_matches_witness :
  classify (confidence PosInf) (of_Z 100) = mismatch.
Proof.
  apply (full_threshold_never_matches PosInf (inject_Z 100));
    [reflexivity | exact I | discriminate].
Defined.

End ScorerBounds.

(** ** Splitting the raw image *)
Module SplitFacts.
Import JsNum JsStr FaceAdd Observed JsStrFacts SessionFacts.

Lemma split_cons sep s : exists piece pieces, split sep s = piece :: pieces.
Proof.
  destruct s as [|ch s]; cbn [split]; [now eexists; eexists|].
  destruct (Ascii.eqb ch sep); [now eexists; eexists|].
  destruct (split sep s); now eexists; eexists.
Qed.

Lemma join_cons sep piece piece' pieces :
  join sep (piece :: piece' :: pieces)
  = piece ++ String sep (join sep (piece' :: pieces)).
Proof. reflexivity. Qed.

Lemma split_join sep s : join sep (split sep s) = s.
Proof.
  induction s as [|ch s IH]; [reflexivity|]. cbn [split].
  destruct (split_cons sep s) as (piece & pieces & Hs).
  rewrite Hs in *.
  destruct (Ascii.eqb ch sep) eqn:E.
  - apply Ascii.eqb_eq in E. subst ch. rewrite join_cons, IH. reflexivity.
  - destruct pieces as [|piece' pieces].
    + cbn [join] in *. now rewrite IH.
    + rewrite join_cons in *. cbn [append]. now rewrite IH.
Qed.

Lemma split_clean sep s :
  Forall (fun piece => has_char sep piece = false) (split sep s).
Proof.
  induction s as [|ch s IH]; cbn [split].
  - now repeat constructor.
  - destruct (Ascii.eqb ch sep) eqn:E.
    + constructor; [reflexivity | exact IH].
    + destruct (split sep s) as [|piece pieces].
      * repeat constructor. cbn [has_char]. now rewrite E.
      * inversion IH as [|? ? Hpiece Hpieces]; subst.
        constructor; [|exact Hpieces]. cbn [has_char]. now rewrite E.
Qed.

Lemma split_length sep s :
  List.length (split sep s) = S (count_char sep s).
Proof.
  induction s as [|ch s IH]; [reflexivity|]. cbn [split count_char].
  destruct (Ascii.eqb ch sep).
  - cbn [List.length]. now rewrite IH.
  - destruct (split sep s); cbn [List.length] in *; lia.
Qed.

Lemma count_char_zero ch s : count_char ch s = 0 <-> has_char ch s = false.
Proof.
  induction s as [|ch' s IH]; cbn [count_char has_char]; [tauto|].
  destruct (Ascii.eqb ch' ch); cbn [orb]; [|exact IH].
  split; [lia | discriminate].
Qed.

Lemma split_whole sep s : has_char sep s = false -> split sep s = [s].
Proof.
  induction s as [|ch s IH]; cbn [split has_char]; [reflexivity|].
  destruct (Ascii.eqb ch sep); cbn [orb]; [discriminate|].
  intro Hs. now rewrite (IH Hs).
Qed.

Lemma split_at sep before rest :
  has_char sep before = false ->
  split sep (before ++ String sep rest) = before :: split sep rest.
Proof.
  induction before as [|ch before IH]; cbn [append split has_char].
  - intros _. now rewrite Ascii.eqb_refl.
  - destruct (Ascii.eqb ch sep); cbn [orb]; [discriminate|].
    intro Hb. now rewrite (IH Hb).
Qed.

(** X4.  [split] loses nothing: joining the pieces with the separator
    gives the string back, no piece contains the separator, and there is
    one piece more than there are separators (so at least one). *)
Theorem split_round_trip (sep : ascii) (s : string) :
  join sep (split sep s) = s
  /\ Forall (fun piece => has_char sep piece = false) (split sep s)
  /\ List.length (split sep s) = S (count_char sep s).
Proof.
  split; [apply split_join|]. split; [apply split_clean|].
  apply split_length.
Qed.

Lemma after_comma_none s :
  after_comma s = None <-> has_char "," s = false.
Proof.
  unfold after_comma. rewrite nth_error_None, split_length.
  rewrite <- count_char_zero. lia.
Qed.

(** X5.  The reference sent to the backend, [raw.split(',')[1]], is
    undefined exactly when the raw image has no comma; for a data URL, a
    header and a payload without commas around one comma, it is the
    payload. *)
Theorem after_comma_payload (s header payload : string) :
  (after_comma s = None <-> has_char "," s = false)
  /\ (has_char "," header = false -> has_char "," payload = false ->
      after_comma (header ++ String "," payload) = Some payload).
Proof.
  split; [apply after_comma_none|].
  intros Hh Hp. unfold after_comma.
  now rewrite (split_at _ _ _ Hh), (split_whole _ _ Hp).
Qed.

Section Save.
Context {error : Type}.

(** X6.  The validation of [handleSave] does not look for the comma: with
    the account filled in and a raw image that is not empty but has no
    comma, the save is sent with an undefined reference. *)
Theorem handleSave_undefined_reference (c : Config error) :
  username (authForm (st c)) <> "" ->
  password (authForm (st c)) <> "" ->
  rawImageForSystem (st c) <> "" ->
  has_char "," (rawImageForSystem (st c)) = false ->
  trace (handleSave c)
  = (trace c
     ++ [Invoke (save_face_registration (faceName (st c)) None)])%list.
Proof.
  intros Hu Hp Hr Hcomma. unfold handleSave.
  rewrite (truthy_true _ Hu), (truthy_true _ Hp), (truthy_true _ Hr).
  cbn [negb orb]. rewrite or_else_empty.
  apply after_comma_none in Hcomma. now rewrite Hcomma.
Qed.

End Save.

Section Signature.
Context {error : Type} (formatObjectString : error -> string).

(** X7.  The loop takes an error for the no-face one exactly when the
    signature occurs somewhere in its text, with anything before and after
    it. *)
Theorem no_face_recognised (e : error) :
  no_face formatObjectString e = true
  <-> exists before rest,
        formatObjectString e
        = before ++ no_face_signature ++ rest.
Proof. unfold no_face. apply includes_spec. Qed.

End Signature.

End SplitFacts.

(** ** Operations followed to their end *)
Module FlowFacts.
Import JsNum JsStr FaceAdd Stated Observed JsStrFacts LoopFacts SessionFacts.

Section Flows.
Context {error : Type} (formatObjectString : error -> string).
Context `{Rounding}.

Abbreviation Config := (Config error).
Abbreviation run := (run formatObjectString).
Abbreviation settle := (settle formatObjectString).

(** Settles the promise sent last, the pending ones before it being those
    of [c]. *)
Ltac settle_newest c :=
  match goal with
  | |- context [FaceAdd.settle ?f (List.length (pending c)) ?r ?c1] =>
      rewrite (settle_last f c1 (pending c) _ r _ eq_refl eq_refl)
  end.

Ltac flatten_trace :=
  cbn; unfold report, then_do, emit, update, await, invoke, skip;
  cbn [st pending frames trace]; rewrite <- ?app_assoc; cbn [app].

(** *** [handleSelectFile] *)

(** X8.  Choosing a file never leaves [isProcessing] set and never touches
    the camera.  A dialog closed without a file sends nothing; a file whose
    check succeeds replaces both images and is announced; a failed check is
    shown and leaves the images as they were. *)
Theorem handleSelectFile_outcomes (c : Config) :
  (forall selected,
     selected = None \/ selected = Some "" ->
     run c [Click SelectFile;
            Settle (List.length (pending c)) (Resolved (VPath selected))]
     = Some {| st := set_isProcessing false (st c);
               pending := pending c; frames := frames c;
               trace := trace c ++ [OpenDialog] |})
  /\ (forall path display raw,
        path <> "" ->
        run c [Click SelectFile;
               Settle (List.length (pending c))
                 (Resolved (VPath (Some path)));
               Settle (List.length (pending c))
                 (Resolved (VFace display raw))]
        = Some {| st := set_isProcessing false
                          (set_rawImageForSystem raw
                             (set_capturedImage display (st c)));
                  pending := pending c; frames := frames c;
                  trace := trace c
                           ++ [OpenDialog;
                               Invoke (check_face_from_img path);
                               ElMessage success "图片载入成功"] |})
  /\ (forall path e,
        path <> "" ->
        run c [Click SelectFile;
               Settle (List.length (pending c))
                 (Resolved (VPath (Some path)));
               Settle (List.length (pending c)) (Rejected e)]
        = Some {| st := set_isProcessing false (st c);
                  pending := pending c; frames := frames c;
                  trace := trace c
                           ++ [OpenDialog;
                               Invoke (check_face_from_img path);
                               ElMessage error_level (formatObjectString e);
                               console_error e] |})
  /\ (forall e,
        run c [Click SelectFile;
               Settle (List.length (pending c)) (Rejected e)]
        = Some {| st := set_isProcessing false (st c);
                  pending := pending c; frames := frames c;
                  trace := trace c
                           ++ [OpenDialog;
                               ElMessage error_level (formatObjectString e);
                               console_error e] |}).
Proof.
  repeat split.
  - intros selected Hnone. cbn [FaceAdd.run FaceAdd.step click].
    settle_newest c. destruct Hnone as [-> | ->]; reflexivity.
  - intros path display raw Hpath.
    cbn [FaceAdd.run FaceAdd.step click].
    settle_newest c. rewrite (truthy_true _ Hpath).
    settle_newest c. flatten_trace. reflexivity.
  - intros path e Hpath.
    cbn [FaceAdd.run FaceAdd.step click].
    settle_newest c. rewrite (truthy_true _ Hpath).
    settle_newest c. flatten_trace. reflexivity.
  - intro e. cbn [FaceAdd.run FaceAdd.step click].
    settle_newest c. flatten_trace. reflexivity.
Qed.

(** *** [handleSave] *)

(** X9.  A save that was sent leaves the session as it found it, however
    the backend answers: only [isProcessing] is cleared, so the frame and
    the form are still there for another attempt.  A rejection is shown;
    a success shows no message. *)
Theorem handleSave_completion (c : Config) r :
  username (authForm (st c)) <> "" ->
  password (authForm (st c)) <> "" ->
  rawImageForSystem (st c) <> "" ->
  exists c',
    run c [Click Save; Settle (List.length (pending c)) r] = Some c'
    /\ st c' = set_isProcessing false (st c)
    /\ pending c' = pending c
    /\ frames c' = frames c
    /\ messages (trace c')
       = (messages (trace c)
          ++ match r with
             | Resolved _ => []
             | Rejected e => [ElMessage error_level (formatObjectString e)]
             end)%list.
Proof.
  intros Hu Hp Hr. cbn [FaceAdd.run FaceAdd.step click].
  unfold handleSave.
  rewrite (truthy_true _ Hu), (truthy_true _ Hp), (truthy_true _ Hr).
  cbn [negb orb].
  destruct r as [v|e]; settle_newest c; eexists;
    (split; [reflexivity|]); repeat split.
  - flatten_trace. unfold messages. rewrite !filter_app. cbn.
    now rewrite app_nil_r.
  - flatten_trace. unfold messages. rewrite !filter_app. reflexivity.
Qed.

(** *** [confirmCapture] *)

(** X10.  Confirming keeps the frame where cancelling drops it: the loop
    flag is cleared at once, and when the release succeeds only the
    streaming flag is cleared with it, so that the toggle control is
    offered exactly when the display image is not empty, and the save
    control when moreover nothing is being processed.  When the release
    fails the error is shown and the streaming flag stays. *)
Theorem confirmCapture_outcomes (c : Config) :
  (forall v,
     run c [Click ConfirmCapture;
            Settle (List.length (pending c)) (Resolved v)]
     = Some {| st := set_isCameraStreaming false
                       (set_isLoopRunning false (st c));
               pending := pending c; frames := frames c;
               trace := trace c ++ [Invoke stop_camera] |})
  /\ (forall e,
        run c [Click ConfirmCapture;
               Settle (List.length (pending c)) (Rejected e)]
        = Some {| st := set_isLoopRunning false (st c);
                  pending := pending c; frames := frames c;
                  trace := trace c
                           ++ [Invoke stop_camera;
                               ElMessage error_level (formatObjectString e);
                               console_error e] |})
  /\ offered (set_isCameraStreaming false
                (set_isLoopRunning false (st c))) ToggleVerification
     = truthy (capturedImage (st c))
  /\ offered (set_isCameraStreaming false
                (set_isLoopRunning false (st c))) Save
     = truthy (capturedImage (st c)) && negb (isProcessing (st c)).
Proof.
  repeat split.
  - intro v. cbn [FaceAdd.run FaceAdd.step click].
    settle_newest c. reflexivity.
  - intro e. cbn [FaceAdd.run FaceAdd.step click].
    settle_newest c. flatten_trace. reflexivity.
  - unfold offered, disabled. cbn.
    now destruct (truthy (capturedImage (st c))).
  - unfold offered, disabled. cbn.
    now destruct (truthy (capturedImage (st c))), (isProcessing (st c)).
Qed.

(** *** Leaving verify mode *)

(** X11.  Leaving verify mode clears the mode flag and the loop flag at
    once, before the release is answered, and the capture controls are
    shown again from then on.  A successful release clears the stream
    image; a failed one is shown and leaves it.  The last confidence is
    kept in both cases. *)
Theorem toggle_off_outcomes (c : Config) :
  verificationMode (st c) = true ->
  toggleVerification c
  = {| st := set_isLoopRunning false (set_verificationMode false (st c));
       pending := pending c ++ [at_toggleVerification_stop];
       frames := frames c;
       trace := trace c ++ [Invoke stop_camera] |}
  /\ (forall v,
        run c [Click ToggleVerification;
               Settle (List.length (pending c)) (Resolved v)]
        = Some {| st := set_verifyingStreamImage ""
                          (set_isLoopRunning false
                             (set_verificationMode false (st c)));
                  pending := pending c; frames := frames c;
                  trace := trace c ++ [Invoke stop_camera] |})
  /\ (forall e,
        run c [Click ToggleVerification;
               Settle (List.length (pending c)) (Rejected e)]
        = Some {| st := set_isLoopRunning false
                          (set_verificationMode false (st c));
                  pending := pending c; frames := frames c;
                  trace := trace c
                           ++ [Invoke stop_camera;
                               ElMessage error_level (formatObjectString e);
                               console_error e] |})
  /\ rendered (st (toggleVerification c)) StartCamera
     = negb (isCameraStreaming (st c))
  /\ matchConfidence (st (toggleVerification c)) = matchConfidence (st c).
Proof.
  intro Hon.
  assert (Hoff :
    toggleVerification c
    = {| st := set_isLoopRunning false (set_verificationMode false (st c));
         pending := pending c ++ [at_toggleVerification_stop];
         frames := frames c;
         trace := trace c ++ [Invoke stop_camera] |}).
  { unfold toggleVerification. cbv zeta.
    cbn [update st verificationMode set_verificationMode].
    now rewrite Hon. }
  split; [exact Hoff|]. repeat split.
  - intro v. cbn [FaceAdd.run FaceAdd.step click]. rewrite Hoff.
    settle_newest c. reflexivity.
  - intro e. cbn [FaceAdd.run FaceAdd.step click]. rewrite Hoff.
    settle_newest c. flatten_trace. reflexivity.
  - now rewrite Hoff.
  - now rewrite Hoff.
Qed.

End Flows.

End FlowFacts.

(** ** What every run keeps *)
Module InvariantFacts.
Import JsNum JsStr FaceAdd Stated Observed JsStrFacts LoopFacts SessionFacts.

(** Opens the handlers down to the configuration they build. *)
Ltac open_handlers :=
  unfold toggleVerification, handleSave, handleSelectFile, startCamera,
    confirmCapture, stopCapture, stopCamera, streamLoop_capture_resume,
    streamLoop_verify_resume, FaceAdd.streamLoop_catch, streamLoop, report,
    schedule_streamLoop, invoke, then_do, update, emit, await, skip in *.

Ltac split_tests :=
  repeat match goal with
         | |- context [match ?o with Some _ => _ | None => _ end] =>
             destruct o
         | |- context [if ?b then _ else _] => destruct b eqn:?
         end.

Section Invariants.
Context {error : Type} (formatObjectString : error -> string).
Context `{Rounding}.

Abbreviation Config := (Config error).
Abbreviation step := (step formatObjectString).
Abbreviation run := (run formatObjectString).
Abbreviation settle := (settle formatObjectString).
Abbreviation resume := (resume formatObjectString).
Abbreviation no_face := (no_face formatObjectString).
Abbreviation loop_starts := (loop_starts formatObjectString).

(** *** Rejections *)

(** X12.  A rejected promise never changes the session: the images, the
    flags, the confidence and the form stay as they were, and nothing is
    sent.  It is shown exactly once, except the rejection of the set-up
    call and the no-face rejection of a detection call, which show nothing;
    the latter alone schedules a tick. *)
Theorem rejection_policy (c c' : Config) n k e :
  nth_error (pending c) n = Some k ->
  settle n (Rejected e) c = Some c' ->
  same_session (st c) (st c')
  /\ pending c' = remove_at n (pending c)
  /\ messages (trace c')
     = (messages (trace c)
        ++ (if is_setup k || (is_detection k && no_face e) then []
            else [ElMessage error_level (formatObjectString e)]))%list
  /\ frames c'
     = frames c + (if is_detection k && no_face e then 1 else 0).
Proof.
  intros Hk. unfold FaceAdd.settle. rewrite Hk.
  destruct k; cbn [resume FaceAdd.resume]; intro Hc'; injection Hc' as <-;
    cbn [is_setup is_detection orb andb];
    unfold FaceAdd.no_face; open_handlers;
    try destruct (includes (formatObjectString e) no_face_signature);
    cbn [st pending frames trace];
    unfold same_session, messages; rewrite ?filter_app; cbn;
    rewrite ?app_nil_r, ?Nat.add_0_r, ?Nat.add_1_r; auto 20.
Qed.

(** *** The two images *)

Lemma paired_step (c c' : Config) ev :
  faithful ev -> paired (st c) -> step c ev = Some c' -> paired (st c').
Proof.
  intros Hev Hpair. destruct ev as [b|i| |n r]; cbn [FaceAdd.step].
  - intro Hc'. injection Hc' as <-. unfold paired in *.
    destruct b; cbn [click]; open_handlers; split_tests; exact Hpair.
  - intro Hc'. injection Hc' as <-. now destruct i.
  - unfold frame. destruct (frames c); [discriminate|].
    intro Hc'. injection Hc' as <-. unfold paired in *.
    open_handlers. cbn [st]. split_tests; exact Hpair.
  - unfold FaceAdd.settle.
    destruct (nth_error (pending c) n) as [k|]; [|discriminate].
    destruct (resume k r) as [h|] eqn:Hh; [|discriminate].
    intro Hc'. injection Hc' as <-. unfold paired in *.
    destruct k, r as [v|e]; try destruct v;
      cbn [FaceAdd.resume] in Hh; try discriminate;
      injection Hh as <-; cbn [faithful] in Hev;
      open_handlers; cbn [st]; split_tests;
      cbn; try exact Hpair; try exact Hev; tauto.
Qed.

(** X13.  With a backend whose detection results carry both images or
    none, the display image and the raw image are empty together in every
    configuration of a run; so wherever the template offers the toggle or
    the save control, the raw image is not empty either. *)
Theorem images_paired (evs : list (Event error)) :
  forall (c c' : Config),
  Forall faithful evs ->
  paired (st c) ->
  run c evs = Some c' ->
  paired (st c')
  /\ (forall b,
        b = Save \/ b = ToggleVerification ->
        rendered (st c') b && negb (bound_disabled (st c') b) = true ->
        rawImageForSystem (st c') <> "").
Proof.
  assert (Hkeep : forall (c c' : Config),
    Forall faithful evs -> paired (st c) -> run c evs = Some c' ->
    paired (st c')).
  { induction evs as [|ev evs IH]; intros c c' Hall Hpair;
      cbn [FaceAdd.run].
    - intro Hc'. now injection Hc' as <-.
    - inversion Hall as [|? ? Hev Hevs]; subst.
      destruct (step c ev) as [c1|] eqn:Hstep; [|discriminate].
      apply (IH c1 c' Hevs). exact (paired_step c c1 ev Hev Hpair Hstep). }
  intros c c' Hall Hpair Hrun.
  pose proof (Hkeep c c' Hall Hpair Hrun) as Hend.
  split; [exact Hend|].
  intros b Hb Hoff Hraw. apply Hend in Hraw.
  destruct Hb as [-> | ->]; cbn [rendered bound_disabled] in Hoff;
    rewrite Hraw in Hoff; discriminate Hoff.
Qed.

(** *** A stopped loop *)

Lemma calls_snoc (t : list (Effect error)) e :
  detection_calls (t ++ [e])
  = detection_calls t + (if is_detection_call e then 1 else 0).
Proof.
  unfold detection_calls. rewrite filter_app, length_app. cbn [filter].
  now destruct (is_detection_call e).
Qed.

Lemma stopped_step (c c' : Config) ev :
  isLoopRunning (st c) = false ->
  starts_loop c ev = false ->
  step c ev = Some c' ->
  isLoopRunning (st c') = false
  /\ detection_calls (trace c') = detection_calls (trace c).
Proof.
  intros Hstop Hnew. destruct ev as [b|i| |n r]; cbn [FaceAdd.step].
  - intro Hc'. injection Hc' as <-.
    destruct b; cbn [click]; open_handlers; cbn [st trace];
      split_tests; cbn [st trace isLoopRunning set_isLoopRunning
                          set_verificationMode set_isProcessing];
      rewrite ?calls_snoc; cbn [is_detection_call]; auto with arith.
  - intro Hc'. injection Hc' as <-. now destruct i.
  - unfold frame. destruct (frames c); [discriminate|].
    intro Hc'. injection Hc' as <-.
    rewrite streamLoop_stopped by exact Hstop. auto.
  - unfold FaceAdd.settle. cbn [starts_loop] in Hnew.
    destruct (nth_error (pending c) n) as [k|]; [|discriminate].
    destruct (resume k r) as [h|] eqn:Hh; [|discriminate].
    intro Hc'. injection Hc' as <-.
    destruct k, r as [v|e]; try destruct v;
      cbn [FaceAdd.resume] in Hh; try discriminate; try discriminate Hnew;
      injection Hh as <-;
      open_handlers; cbn [st trace]; split_tests;
      cbn [st trace isLoopRunning set_isLoopRunning set_verificationMode
             set_isProcessing set_isCameraStreaming set_capturedImage
             set_rawImageForSystem set_verifyingStreamImage
             set_matchConfidence set_authForm];
      rewrite ?calls_snoc; cbn [is_detection_call];
      rewrite ?Nat.add_0_r; auto.
Qed.

(** X14.  A loop that was stopped stays stopped: as long as no
    [open_camera] resolves, the loop flag stays cleared and no detection
    call is sent, whatever is clicked and whatever else settles. *)
Theorem stopped_stays_stopped (evs : list (Event error)) :
  forall (c c' : Config),
  isLoopRunning (st c) = false ->
  loop_starts c evs = 0 ->
  run c evs = Some c' ->
  isLoopRunning (st c') = false
  /\ detection_calls (trace c') = detection_calls (trace c).
Proof.
  induction evs as [|ev evs IH]; intros c c' Hstop Hnone;
    cbn [FaceAdd.run].
  - intro Hc'. injection Hc' as <-. auto.
  - cbn [FaceAdd.loop_starts] in Hnone.
    destruct (step c ev) as [c1|] eqn:Hstep; [|discriminate].
    intro Hrun.
    assert (Hnew : starts_loop c ev = false)
      by (destruct (starts_loop c ev); [lia | reflexivity]).
    rewrite Hnew in Hnone.
    destruct (stopped_step c c1 ev Hstop Hnew Hstep) as (Hstop1 & Hcalls).
    destruct (IH c1 c' Hstop1 Hnone Hrun) as (Hend & Hcalls').
    split; [exact Hend | congruence].
Qed.

(** *** Stepping through a run *)

Lemma settle_at (c : Config) n k r h :
  nth_error (pending c) n = Some k ->
  resume k r = Some h ->
  settle n r c
  = Some (h {| st := st c; pending := remove_at n (pending c);
               frames := frames c; trace := trace c |}).
Proof.
  intros Hk Hh. unfold FaceAdd.settle. now rewrite Hk, Hh.
Qed.

Lemma frame_at (c : Config) m :
  frames c = S m ->
  step c Frame
  = Some (streamLoop {| st := st c; pending := pending c; frames := m;
                        trace := trace c |}).
Proof.
  intro Hm. cbn [FaceAdd.step]. unfold frame. now rewrite Hm.
Qed.

Lemma run_cons (c c1 : Config) ev evs :
  step c ev = Some c1 -> run c (ev :: evs) = run c1 evs.
Proof.
  intro Hstep. cbn [FaceAdd.run]. now rewrite Hstep.
Qed.

(** *** A frame that arrives after the cancel *)

(** X15.  Cancelling does not discard the detection call in flight: when
    the release is answered first and the frame arrives afterwards, the
    frame is stored all the same, so both images are set again although the
    camera is no longer streaming; the tick scheduled with it finds the
    loop flag cleared and sends nothing. *)
Theorem late_frame_after_cancel (c : Config) n v display raw :
  nth_error (pending c) n = Some at_streamLoop_capture ->
  exists c',
    run c [Click StopCapture;
           Settle (List.length (pending c)) (Resolved v);
           Settle n (Resolved (VFace display raw));
           Frame]
    = Some c'
    /\ capturedImage (st c') = display
    /\ rawImageForSystem (st c') = raw
    /\ isCameraStreaming (st c') = false
    /\ isLoopRunning (st c') = false
    /\ pending c' = remove_at n (pending c)
    /\ frames c' = frames c
    /\ detection_calls (trace c') = detection_calls (trace c).
Proof.
  intro Hk.
  set (s2 := set_rawImageForSystem ""
               (set_capturedImage ""
                  (set_isCameraStreaming false
                     (set_isLoopRunning false (st c))))).
  set (c2 := {| st := s2; pending := pending c; frames := frames c;
                trace := trace c ++ [Invoke stop_camera] |} : Config).
  set (c3 := {| st := set_rawImageForSystem raw
                        (set_capturedImage display s2);
                pending := remove_at n (pending c);
                frames := S (frames c);
                trace := (trace c ++ [Invoke stop_camera])
                         ++ [requestAnimationFrame] |} : Config).
  set (c4 := {| st := st c3; pending := pending c3; frames := frames c;
                trace := trace c3 |} : Config).
  assert (H1 : step c (Click StopCapture) = Some (stopCapture c))
    by reflexivity.
  assert (H2 : step (stopCapture c)
                 (Settle (List.length (pending c)) (Resolved v))
               = Some c2).
  { cbn [FaceAdd.step].
    now rewrite (settle_last formatObjectString (stopCapture c) (pending c)
                   at_stopCapture (Resolved v) _ eq_refl eq_refl). }
  assert (H3 : step c2 (Settle n (Resolved (VFace display raw)))
               = Some c3).
  { cbn [FaceAdd.step].
    now rewrite (settle_at c2 n at_streamLoop_capture
                   (Resolved (VFace display raw)) _ Hk eq_refl). }
  assert (H4 : step c3 Frame = Some c4).
  { rewrite (frame_at c3 (frames c) eq_refl).
    now rewrite streamLoop_stopped by reflexivity. }
  exists c4.
  rewrite (run_cons _ _ _ _ H1), (run_cons _ _ _ _ H2),
    (run_cons _ _ _ _ H3), (run_cons _ _ _ _ H4).
  split; [reflexivity|]. repeat split.
  change (trace c4)
    with ((trace c ++ [Invoke stop_camera]) ++ [requestAnimationFrame])%list.
  rewrite !calls_snoc. cbn [is_detection_call]. lia.
Qed.

(** *** Verification rounds *)

Lemma verify_resumed (c : Config) display score :
  exists s1,
    streamLoop_verify_resume display score c
    = {| st := set_matchConfidence (confidence score) s1;
         pending := pending c; frames := S (frames c);
         trace := trace c ++ [requestAnimationFrame] |}
    /\ isLoopRunning s1 = isLoopRunning (st c)
    /\ verificationMode s1 = verificationMode (st c)
    /\ capturedImage s1 = capturedImage (st c)
    /\ rawImageForSystem s1 = rawImageForSystem (st c).
Proof.
  unfold streamLoop_verify_resume.
  destruct display as [img|]; [destruct (truthy img)|].
  - exists (set_verifyingStreamImage img (st c)). now repeat split.
  - exists (st c). now repeat split.
  - exists (st c). now repeat split.
Qed.

Lemma verify_round (c : Config) before display score :
  pending c = (before ++ [at_streamLoop_verify])%list ->
  isLoopRunning (st c) = true ->
  verificationMode (st c) = true ->
  exists c1,
    run c [Settle (List.length before) (Resolved (VScore display score));
           Frame] = Some c1
    /\ pending c1 = (before ++ [at_streamLoop_verify])%list
    /\ isLoopRunning (st c1) = true
    /\ verificationMode (st c1) = true
    /\ matchConfidence (st c1) = confidence score
    /\ capturedImage (st c1) = capturedImage (st c)
    /\ rawImageForSystem (st c1) = rawImageForSystem (st c)
    /\ frames c1 = frames c
    /\ trace c1
       = (trace c
          ++ [requestAnimationFrame;
              Invoke (verify_face
                        (after_comma (rawImageForSystem (st c))))])%list.
Proof.
  intros Hp Hrun Hmode.
  set (c0 := {| st := st c; pending := before; frames := frames c;
                trace := trace c |} : Config).
  destruct (verify_resumed c0 display score)
    as (s1 & Hres & Hloop & Hverify & Himg & Hraw).
  cbn [st c0] in Hloop, Hverify, Himg, Hraw.
  set (c2 := {| st := set_matchConfidence (confidence score) s1;
                pending := before; frames := frames c;
                trace := trace c ++ [requestAnimationFrame] |} : Config).
  set (c1 := {| st := set_matchConfidence (confidence score) s1;
                pending := before; frames := S (frames c);
                trace := trace c ++ [requestAnimationFrame] |} : Config).
  assert (H1 : step c (Settle (List.length before)
                          (Resolved (VScore display score)))
               = Some c1).
  { cbn [FaceAdd.step].
    rewrite (settle_last formatObjectString c before at_streamLoop_verify
               (Resolved (VScore display score)) _ Hp eq_refl).
    fold c0. now rewrite Hres. }
  assert (Hrun2 : isLoopRunning (st c2) = true)
    by (cbn [st c2 isLoopRunning set_matchConfidence]; congruence).
  assert (H2 : step c1 Frame = Some (streamLoop c2))
    by exact (frame_at c1 (frames c) eq_refl).
  rewrite (streamLoop_running c2 Hrun2) in H2.
  assert (Hsite : detection_site (st c2) = at_streamLoop_verify).
  { unfold detection_site.
    cbn [st c2 verificationMode set_matchConfidence].
    now rewrite Hverify, Hmode. }
  assert (Hcmd : detection_command (st c2)
                 = verify_face (after_comma (rawImageForSystem (st c)))).
  { unfold detection_command.
    cbn [st c2 verificationMode rawImageForSystem set_matchConfidence].
    now rewrite Hverify, Hmode, Hraw. }
  rewrite Hsite, Hcmd in H2.
  eexists. rewrite (run_cons _ _ _ _ H1), (run_cons _ _ _ _ H2).
  split; [reflexivity|].
  cbn [st pending frames trace c2 isLoopRunning verificationMode
         matchConfidence capturedImage rawImageForSystem
         set_matchConfidence].
  rewrite <- app_assoc. repeat split; try congruence.
Qed.

(** X16.  Verification keeps no history and never touches the reference:
    after any number of verification rounds the confidence is that of the
    last sample alone, both images are those the rounds began with, and
    every round has sent one [verify_face] call. *)
Theorem last_sample_wins (samples : list (option string * number)) :
  forall (c : Config) before display score,
  pending c = (before ++ [at_streamLoop_verify])%list ->
  isLoopRunning (st c) = true ->
  verificationMode (st c) = true ->
  exists c',
    run c (verify_ticks (List.length before)
             (samples ++ [(display, score)]))
    = Some c'
    /\ matchConfidence (st c') = confidence score
    /\ capturedImage (st c') = capturedImage (st c)
    /\ rawImageForSystem (st c') = rawImageForSystem (st c)
    /\ isLoopRunning (st c') = true
    /\ in_flight c' = in_flight c
    /\ detection_calls (trace c')
       = detection_calls (trace c) + S (List.length samples).
Proof.
  induction samples as [|[d0 s0] samples IH];
    intros c before display score Hp Hrun Hmode.
  - destruct (verify_round c before display score Hp Hrun Hmode)
      as (c1 & Hc1 & Hp1 & Hloop & _ & Hconf & Himg & Hraw & _ & Htr).
    exists c1. cbn [app verify_ticks flat_map fst snd].
    rewrite Hc1. repeat split; auto.
    + unfold in_flight. now rewrite Hp1, Hp.
    + rewrite Htr. unfold detection_calls.
      rewrite filter_app, length_app. cbn. lia.
  - destruct (verify_round c before d0 s0 Hp Hrun Hmode)
      as (c1 & Hc1 & Hp1 & Hrun1 & Hmode1 & _ & Himg & Hraw & _ & Htr).
    destruct (IH c1 before display score Hp1 Hrun1 Hmode1)
      as (c' & Hc' & Hconf & Himg' & Hraw' & Hloop & Hfly & Hcalls).
    exists c'.
    change (verify_ticks (List.length before)
              (((d0, s0) :: samples) ++ [(display, score)]))
      with ([Settle (List.length before) (Resolved (VScore d0 s0)); Frame]
            ++ verify_ticks (error := error) (List.length before)
                 (samples ++ [(display, score)]))%list.
    rewrite run_app, Hc1. repeat split; try congruence.
    + rewrite Hfly. unfold in_flight. now rewrite Hp1, Hp.
    + rewrite Hcalls, Htr. unfold detection_calls.
      rewrite filter_app, length_app. cbn [List.length]. cbn. lia.
Qed.

(** *** The busy flag *)

Lemma existsb_remove_at {A : Type} (p : A -> bool) (l : list A) n k :
  nth_error l n = Some k -> p k = false ->
  existsb p (remove_at n l) = existsb p l.
Proof.
  unfold remove_at. revert n.
  induction l as [|a l IH]; intros [|n] Hn Hk; try discriminate.
  - injection Hn as ->. cbn. now rewrite Hk.
  - simpl in Hn.
    change (firstn (S n) (a :: l) ++ skipn (S (S n)) (a :: l))%list
      with (a :: (firstn n l ++ skipn (S n) l))%list.
    cbn [existsb]. now rewrite (IH n Hn Hk).
Qed.

Lemma existsb_snoc {A : Type} (p : A -> bool) (l : list A) k :
  existsb p (l ++ [k]) = existsb p l || p k.
Proof.
  rewrite existsb_app. cbn. now rewrite orb_false_r.
Qed.

Lemma busy_step (c c' : Config) ev :
  busy_explained c -> step c ev = Some c' -> busy_explained c'.
Proof.
  intro Hbusy. unfold busy_explained in *.
  destruct ev as [b|i| |n r]; cbn [FaceAdd.step].
  - intro Hc'. injection Hc' as <-.
    destruct b; cbn [click]; open_handlers; split_tests;
      cbn [st pending isProcessing set_isLoopRunning set_verificationMode
             set_isProcessing];
      rewrite ?existsb_snoc; cbn [busy_cause];
      rewrite ?orb_false_r, ?orb_true_r; auto.
  - intro Hc'. injection Hc' as <-. now destruct i.
  - unfold frame. destruct (frames c); [discriminate|].
    intro Hc'. injection Hc' as <-.
    open_handlers. cbn [st pending]. split_tests;
      cbn [st pending]; rewrite ?existsb_snoc; cbn [busy_cause];
      rewrite ?orb_false_r; auto.
  - unfold FaceAdd.settle.
    destruct (nth_error (pending c) n) as [k|] eqn:Hk; [|discriminate].
    destruct (resume k r) as [h|] eqn:Hh; [|discriminate].
    intro Hc'. injection Hc' as <-.
    destruct (busy_cause k) eqn:Hcause.
    + destruct k; try discriminate Hcause;
        destruct r as [v|e]; try destruct v;
        cbn [FaceAdd.resume] in Hh; try discriminate;
        injection Hh as <-; open_handlers;
        cbn [st isProcessing set_isProcessing]; discriminate.
    + pose proof (existsb_remove_at busy_cause _ n k Hk Hcause) as Hrem.
      destruct k, r as [v|e]; try destruct v;
        cbn [FaceAdd.resume] in Hh; try discriminate;
        try discriminate Hcause;
        injection Hh as <-; open_handlers; cbn [st pending];
        split_tests;
        cbn [st pending isProcessing set_isLoopRunning set_verificationMode
               set_isProcessing set_isCameraStreaming set_capturedImage
               set_rawImageForSystem set_verifyingStreamImage
               set_matchConfidence set_authForm];
        rewrite ?existsb_snoc, ?Hrem; cbn [busy_cause];
        rewrite ?orb_false_r, ?orb_true_r; auto; discriminate.
Qed.

(** X17.  The busy flag is never left behind: in every configuration of a
    run, [isProcessing] is set only while a file check or a save is still
    waiting for its answer. *)
Theorem busy_never_sticks (evs : list (Event error)) :
  forall (c c' : Config),
  busy_explained c ->
  run c evs = Some c' ->
  busy_explained c'.
Proof.
  induction evs as [|ev evs IH]; intros c c' Hbusy; cbn [FaceAdd.run].
  - intro Hc'. now injection Hc' as <-.
  - destruct (step c ev) as [c1|] eqn:Hstep; [|discriminate].
    apply IH. exact (busy_step c c1 ev Hbusy Hstep).
Qed.

End Invariants.

(** *** The controls of the template *)

(** X18.  The capture controls come in two pairs that are never shown
    together and are all hidden in verify mode.  While something is being
    processed the select, start and save buttons take no click.  The save
    control is offered exactly when the toggle control is and nothing is
    being processed, verify mode included, and then the display image is
    not empty and the camera is not streaming. *)
Theorem controls_exclusive (s : State) :
  rendered s SelectFile = rendered s StartCamera
  /\ rendered s ConfirmCapture = rendered s StopCapture
  /\ rendered s StartCamera && rendered s StopCapture = false
  /\ (verificationMode s = true ->
      forall b, b <> ToggleVerification -> b <> Save -> rendered s b = false)
  /\ (isProcessing s = true ->
      forall b, b = SelectFile \/ b = StartCamera \/ b = Save ->
      offered s b = false)
  /\ offered s Save = offered s ToggleVerification && negb (isProcessing s)
  /\ (offered s Save = true ->
      capturedImage s <> "" /\ isCameraStreaming s = false
      /\ isProcessing s = false).
Proof.
  unfold offered, disabled. cbn [rendered bound_disabled loading].
  split; [reflexivity|]. split; [reflexivity|].
  split; [|split; [|split; [|split]]].
  - now destruct (verificationMode s), (isCameraStreaming s).
  - intros Hmode b Hb1 Hb2. destruct b; cbn [rendered];
      rewrite ?Hmode; try reflexivity; contradiction.
  - intros Hbusy b [-> | [-> | ->]];
      cbn [rendered bound_disabled loading]; rewrite Hbusy;
      now rewrite orb_true_r, ?andb_false_r.
  - now destruct (truthy (capturedImage s)), (isCameraStreaming s),
      (isProcessing s).
  - intro Hsave. repeat split.
    + intro Himg. rewrite Himg in Hsave. discriminate Hsave.
    + now destruct (truthy (capturedImage s)), (isCameraStreaming s).
    + now destruct (truthy (capturedImage s)), (isCameraStreaming s),
        (isProcessing s).
Qed.

End InvariantFacts.

(** ** Answers that arrive late *)
Module RaceFacts.
Import JsNum JsStr FaceAdd Stated Observed JsStrFacts LoopFacts SessionFacts.
Import InvariantFacts.

Lemma nth_error_mid {A : Type} (l rest : list A) a :
  nth_error ((l ++ [a]) ++ rest) (List.length l) = Some a.
Proof.
  rewrite <- app_assoc, nth_error_app2 by lia.
  now rewrite Nat.sub_diag.
Qed.

Lemma remove_at_mid {A : Type} (l rest : list A) a :
  remove_at (List.length l) ((l ++ [a]) ++ rest) = (l ++ rest)%list.
Proof.
  unfold remove_at. rewrite <- app_assoc.
  rewrite firstn_app, Nat.sub_diag, firstn_all.
  rewrite skipn_app, skipn_all2 by lia.
  replace (S (List.length l) - List.length l) with 1 by lia.
  cbn [firstn skipn app]. now rewrite app_nil_r.
Qed.

Section Races.
Context {error : Type} (formatObjectString : error -> string).
Context `{Rounding}.

Abbreviation Config := (Config error).
Abbreviation step := (step formatObjectString).
Abbreviation run := (run formatObjectString).
Abbreviation ui_run := (ui_run formatObjectString).

Lemma ui_run_cons (c c1 : Config) ev evs :
  admitted c ev = true -> step c ev = Some c1 ->
  ui_run c (ev :: evs) = ui_run c1 evs.
Proof.
  intros Hadm Hstep. cbn [FaceAdd.ui_run]. now rewrite Hadm, Hstep.
Qed.

Lemma toggle_off (c : Config) :
  verificationMode (st c) = true ->
  toggleVerification c
  = {| st := set_isLoopRunning false (set_verificationMode false (st c));
       pending := pending c ++ [at_toggleVerification_stop];
       frames := frames c;
       trace := trace c ++ [Invoke stop_camera] |}.
Proof.
  intro Hon. unfold toggleVerification. cbv zeta.
  cbn [update st verificationMode set_verificationMode]. now rewrite Hon.
Qed.

(** [streamLoop] in capture mode. *)
Lemma streamLoop_capture (c : Config) :
  isLoopRunning (st c) = true -> verificationMode (st c) = false ->
  streamLoop c
  = {| st := st c; pending := pending c ++ [at_streamLoop_capture];
       frames := frames c;
       trace := trace c ++ [Invoke check_face_from_camera] |}.
Proof.
  intros Hrun Hmode. rewrite (streamLoop_running c Hrun).
  unfold detection_site, detection_command. now rewrite Hmode.
Qed.

(** X19.  Verify mode entered and left again before [open_camera] is
    answered: the answer sets the loop flag and starts the loop although
    verify mode is off, so the loop runs in capture mode, and the frame it
    brings replaces both images, the reference included. *)
Theorem toggle_twice_restarts_capture (c : Config) v display raw :
  verificationMode (st c) = false ->
  exists c',
    run c [Click ToggleVerification; Click ToggleVerification;
           Settle (List.length (pending c)) (Resolved v);
           Settle (S (List.length (pending c)))
             (Resolved (VFace display raw))]
    = Some c'
    /\ verificationMode (st c') = false
    /\ isLoopRunning (st c') = true
    /\ capturedImage (st c') = display
    /\ rawImageForSystem (st c') = raw
    /\ pending c' = (pending c ++ [at_toggleVerification_stop])%list
    /\ frames c' = S (frames c)
    /\ detection_calls (trace c') = S (detection_calls (trace c)).
Proof.
  intro Hoff.
  set (c1 := {| st := set_verificationMode true (st c);
                pending := pending c ++ [at_toggleVerification_open];
                frames := frames c;
                trace := trace c ++ [Invoke open_camera] |} : Config).
  set (s2 := set_isLoopRunning false
               (set_verificationMode false (st c1))).
  set (c2 := {| st := s2;
                pending := (pending c ++ [at_toggleVerification_open])
                           ++ [at_toggleVerification_stop];
                frames := frames c;
                trace := (trace c ++ [Invoke open_camera])
                         ++ [Invoke stop_camera] |} : Config).
  set (c3 := {| st := set_isLoopRunning true s2;
                pending := (pending c ++ [at_toggleVerification_stop])
                           ++ [at_streamLoop_capture];
                frames := frames c;
                trace := ((trace c ++ [Invoke open_camera])
                          ++ [Invoke stop_camera])
                         ++ [Invoke check_face_from_camera] |} : Config).
  set (c4 := {| st := set_rawImageForSystem raw
                        (set_capturedImage display
                           (set_isLoopRunning true s2));
                pending := pending c ++ [at_toggleVerification_stop];
                frames := S (frames c);
                trace := trace c3 ++ [requestAnimationFrame] |} : Config).
  assert (H1 : step c (Click ToggleVerification) = Some c1).
  { cbn [FaceAdd.step click]. now rewrite (toggle_on c Hoff). }
  assert (H2 : step c1 (Click ToggleVerification) = Some c2).
  { cbn [FaceAdd.step click]. now rewrite (toggle_off c1 eq_refl). }
  assert (H3 : step c2 (Settle (List.length (pending c)) (Resolved v))
               = Some c3).
  { cbn [FaceAdd.step].
    rewrite (settle_at formatObjectString c2 (List.length (pending c))
               at_toggleVerification_open (Resolved v) _
               (nth_error_mid _ _ _) eq_refl).
    cbn [pending c2]. rewrite remove_at_mid.
    unfold then_do, update. cbn [st pending frames trace].
    now rewrite streamLoop_capture by reflexivity. }
  assert (H4 : step c3 (Settle (S (List.length (pending c)))
                          (Resolved (VFace display raw)))
               = Some c4).
  { cbn [FaceAdd.step].
    replace (S (List.length (pending c)))
      with (List.length (pending c ++ [at_toggleVerification_stop]))
      by (rewrite length_app; cbn [List.length]; lia).
    now rewrite (settle_last formatObjectString c3
                   (pending c ++ [at_toggleVerification_stop])
                   at_streamLoop_capture (Resolved (VFace display raw)) _
                   eq_refl eq_refl). }
  exists c4.
  rewrite (run_cons _ _ _ _ _ H1), (run_cons _ _ _ _ _ H2),
    (run_cons _ _ _ _ _ H3), (run_cons _ _ _ _ _ H4).
  split; [reflexivity|]. repeat split.
  cbn [trace c4 c3]. rewrite !calls_snoc. cbn [is_detection_call]. lia.
Qed.

(** X20.  With nothing being processed, the start control is still
    offered until [open_camera] is answered: clicked twice, and answered
    twice with success, [startCamera] leaves two loops behind, each with
    its own detection call in flight, and shows no message. *)
Theorem start_twice_two_loops (c : Config) v1 v2 :
  verificationMode (st c) = false ->
  isCameraStreaming (st c) = false ->
  isProcessing (st c) = false ->
  exists c',
    ui_run c
      [Click StartCamera; Click StartCamera;
       Settle (List.length (pending c)) (Resolved v1);
       Settle (List.length (pending c)) (Resolved v2)]
    = Some c'
    /\ isCameraStreaming (st c') = true
    /\ isLoopRunning (st c') = true
    /\ pending c'
       = (pending c ++ [at_streamLoop_capture; at_streamLoop_capture])%list
    /\ in_flight c' = in_flight c + 2
    /\ messages (trace c') = messages (trace c).
Proof.
  intros Hmode Hcam Hbusy.
  set (c1 := {| st := st c; pending := pending c ++ [at_startCamera];
                frames := frames c;
                trace := trace c ++ [Invoke open_camera] |} : Config).
  set (c2 := {| st := st c;
                pending := (pending c ++ [at_startCamera])
                           ++ [at_startCamera];
                frames := frames c;
                trace := (trace c ++ [Invoke open_camera])
                         ++ [Invoke open_camera] |} : Config).
  set (s3 := set_isLoopRunning true (set_isCameraStreaming true (st c))).
  set (c3 := {| st := s3;
                pending := (pending c ++ [at_startCamera])
                           ++ [at_streamLoop_capture];
                frames := frames c;
                trace := trace c2 ++ [Invoke check_face_from_camera] |}
             : Config).
  set (c4 := {| st := set_isLoopRunning true
                        (set_isCameraStreaming true s3);
                pending := (pending c ++ [at_streamLoop_capture])
                           ++ [at_streamLoop_capture];
                frames := frames c;
                trace := trace c3 ++ [Invoke check_face_from_camera] |}
             : Config).
  assert (Hshown : offered (st c) StartCamera = true).
  { unfold offered, disabled. cbn [rendered bound_disabled loading].
    now rewrite Hmode, Hcam, Hbusy. }
  assert (H1 : step c (Click StartCamera) = Some c1) by reflexivity.
  assert (H2 : step c1 (Click StartCamera) = Some c2) by reflexivity.
  assert (H3 : step c2 (Settle (List.length (pending c)) (Resolved v1))
               = Some c3).
  { cbn [FaceAdd.step].
    rewrite (settle_at formatObjectString c2 (List.length (pending c))
               at_startCamera (Resolved v1) _
               (nth_error_mid _ _ _) eq_refl).
    cbn [pending c2]. rewrite remove_at_mid.
    unfold then_do, update. cbn [st pending frames trace].
    now rewrite streamLoop_capture by (cbn; auto). }
  assert (H4 : step c3 (Settle (List.length (pending c)) (Resolved v2))
               = Some c4).
  { cbn [FaceAdd.step].
    rewrite (settle_at formatObjectString c3 (List.length (pending c))
               at_startCamera (Resolved v2) _
               (nth_error_mid _ _ _) eq_refl).
    cbn [pending c3]. rewrite remove_at_mid.
    unfold then_do, update. cbn [st pending frames trace].
    now rewrite streamLoop_capture by (cbn; auto). }
  exists c4.
  rewrite (ui_run_cons c c1 (Click StartCamera) _ Hshown H1),
    (ui_run_cons c1 c2 (Click StartCamera) _ Hshown H2),
    (ui_run_cons c2 c3 (Settle _ (Resolved v1)) _ eq_refl H3),
    (ui_run_cons c3 c4 (Settle _ (Resolved v2)) _ eq_refl H4).
  split; [reflexivity|]. repeat split.
  - cbn [pending c4]. now rewrite <- app_assoc.
  - unfold in_flight. cbn [pending c4].
    rewrite !filter_app, !length_app. cbn. lia.
  - unfold messages. cbn [trace c4 c3 c2].
    rewrite !filter_app. cbn. now rewrite !app_nil_r.
Qed.

End Races.

End RaceFacts.

(** ** Further sessions replayed *)
Module Replayed.
Import JsNum JsStr FaceAdd Stated Observed Replay MoreSessions.
Import JsNumFacts LoopFacts SessionFacts.
Import SplitFacts FlowFacts InvariantFacts RaceFacts.

Example verifying_reached :
  ui_run show captured [Click ToggleVerification; Settle 0 (Resolved VVoid)]
  = Some verifying.
Proof. reflexivity. Qed.

Lemma after_comma_payload_witness :
  after_comma frame_kept = Some "BBBB" /\ after_comma "BBBB" = None.
Proof.
  destruct (after_comma_payload "BBBB" "data:image/jpeg;base64" "BBBB")
    as (Hnone & Hsome).
  split; [now apply Hsome | now apply Hnone].
Defined.

Lemma handleSave_undefined_reference_witness :
  trace (handleSave bare) = [Invoke (save_face_registration "" None)].
Proof.
  apply (handleSave_undefined_reference bare);
    [discriminate | discriminate | discriminate | reflexivity].
Defined.

Lemma no_face_recognised_witness :
  no_face show "Error: 未检测到人脸 (camera 0)" = true.
Proof.
  apply (no_face_recognised show). now exists "Error: ", " (camera 0)".
Defined.

Lemma handleSelectFile_outcomes_witness :
  exists c',
    run show initial
      [Click SelectFile;
       Settle 1 (Resolved (VPath (Some "face.png")));
       Settle 1 (Rejected "no face in the picture")]
    = Some c'
    /\ isProcessing (st c') = false /\ capturedImage (st c') = "".
Proof.
  destruct (handleSelectFile_outcomes show (@initial string))
    as (_ & _ & Hfail & _).
  eexists. split; [apply (Hfail "face.png"); discriminate|].
  split; reflexivity.
Defined.

Lemma handleSave_completion_witness :
  exists c',
    run show captured [Click Save; Settle 0 (Rejected "disk full")]
    = Some c'
    /\ st c' = st captured.
Proof.
  destruct (handleSave_completion show captured (Rejected "disk full"))
    as (c' & Hrun & Hst & _); try discriminate.
  exists c'. split; [exact Hrun|]. rewrite Hst. reflexivity.
Defined.

Lemma confirmCapture_outcomes_witness :
  offered (set_isCameraStreaming false
             (set_isLoopRunning false (st streaming))) Save = false.
Proof.
  destruct (confirmCapture_outcomes show streaming) as (_ & _ & _ & Hsave).
  rewrite Hsave. reflexivity.
Defined.

Lemma toggle_off_outcomes_witness :
  exists c',
    run show verifying [Click ToggleVerification; Settle 1 (Rejected "busy")]
    = Some c'
    /\ verificationMode (st c') = false
    /\ isLoopRunning (st c') = false.
Proof.
  destruct (toggle_off_outcomes show verifying eq_refl)
    as (_ & _ & Hfail & _).
  eexists. split; [apply (Hfail "busy")|]. split; reflexivity.
Defined.

Lemma rejection_policy_witness :
  exists c',
    settle show 1 (Rejected "camera disconnected") streaming = Some c'
    /\ same_session (st streaming) (st c')
    /\ messages (trace c') = [ElMessage error_level "camera disconnected"].
Proof.
  eexists. split; [reflexivity|].
  destruct (rejection_policy show streaming _ 1 at_streamLoop_capture
              "camera disconnected" eq_refl eq_refl)
    as (Hsame & _ & Hmsg & _).
  split; [exact Hsame | exact Hmsg].
Defined.

Lemma images_paired_witness :
  paired (st captured) /\ rawImageForSystem (st captured) <> "".
Proof.
  assert (Hall : Forall (@faithful string) file_chosen).
  { repeat constructor; discriminate. }
  assert (Hstart : paired initial_state) by (split; reflexivity).
  destruct (images_paired show file_chosen initial captured Hall Hstart
              eq_refl) as (Hpair & Hgate).
  split; [exact Hpair|].
  apply (Hgate Save); [now left | reflexivity].
Defined.

Lemma stopped_stays_stopped_witness :
  isLoopRunning (st captured) = false
  /\ detection_calls (trace captured) = 0.
Proof.
  apply (stopped_stays_stopped show file_chosen initial captured);
    reflexivity.
Defined.

Lemma late_frame_after_cancel_witness :
  exists c',
    run show streaming
      [Click StopCapture; Settle 2 (Resolved VVoid);
       Settle 1 (Resolved (VFace frame_shown frame_kept)); Frame]
    = Some c'
    /\ capturedImage (st c') = frame_shown
    /\ isCameraStreaming (st c') = false.
Proof.
  destruct (late_frame_after_cancel show streaming 1 VVoid frame_shown
              frame_kept eq_refl)
    as (c' & Hrun & Himg & _ & Hcam & _).
  exists c'. repeat split; assumption.
Defined.

Lemma last_sample_wins_witness :
  exists c',
    run show verifying
      (verify_ticks 0 (two_samples ++ [(None, Fin (91 # 100))]))
    = Some c'
    /\ matchConfidence (st c') = of_Z 91
    /\ rawImageForSystem (st c') = frame_kept.
Proof.
  destruct (last_sample_wins show two_samples verifying []
              None (Fin (91 # 100)) eq_refl eq_refl eq_refl)
    as (c' & Hrun & Hconf & _ & Hraw & _).
  exists c'. split; [exact Hrun|]. split; [|exact Hraw].
  rewrite Hconf. reflexivity.
Defined.

Lemma busy_never_sticks_witness : busy_explained captured.
Proof.
  apply (busy_never_sticks show file_chosen initial captured);
    [discriminate | reflexivity].
Defined.

Lemma controls_exclusive_witness :
  rendered (st verifying) StartCamera = false
  /\ offered (st verifying) Save = true.
Proof.
  destruct (controls_exclusive (st verifying))
    as (_ & _ & _ & Hverify & _ & Hsave & _).
  split; [apply Hverify; [reflexivity | discriminate | discriminate]|].
  rewrite Hsave. reflexivity.
Defined.

Lemma toggle_twice_restarts_capture_witness :
  exists c',
    run show captured
      [Click ToggleVerification; Click ToggleVerification;
       Settle 0 (Resolved VVoid);
       Settle 1 (Resolved (VFace "other" "data:,other"))]
    = Some c'
    /\ rawImageForSystem (st c') = "data:,other"
    /\ verificationMode (st c') = false.
Proof.
  destruct (toggle_twice_restarts_capture show captured VVoid "other"
              "data:,other" eq_refl)
    as (c' & Hrun & Hmode & _ & _ & Hraw & _).
  exists c'. repeat split; assumption.
Defined.

Lemma start_twice_two_loops_witness :
  exists c',
    ui_run show initial
      [Click StartCamera; Click StartCamera;
       Settle 1 (Resolved VVoid); Settle 1 (Resolved VVoid)]
    = Some c'
    /\ in_flight c' = 2.
Proof.
  destruct (start_twice_two_loops show initial VVoid VVoid eq_refl eq_refl
              eq_refl)
    as (c' & Hrun & _ & _ & _ & Hfly & _).
  exists c'. split; [exact Hrun | exact Hfly].
Defined.

End Replayed.

(** ** The component with the camera of its backend *)
Module WorldFacts.
Import JsNum JsStr FaceAdd Stated Observed Backend.
Import JsStrFacts LoopFacts SessionFacts.

Section Held.
Context {error : Type} (formatObjectString : error -> string).
Context `{Rounding}.

Abbreviation World := (World error).
Abbreviation answer := (answer formatObjectString).
Abbreviation world_step := (world_step formatObjectString).
Abbreviation world_run := (world_run formatObjectString).





End Held.

End WorldFacts.

(** ** Sessions of the running application replayed *)
Module Revisited.
Import JsNum JsStr FaceAdd Stated Observed Replay Backend.
Import JsNumFacts LoopFacts SessionFacts WorldFacts.

Example camera_started_reached :
  world_run show mounted camera_started
  = Some {| component := streaming; handles := 1 |}.
Proof. reflexivity. Qed.

Example without_raw_reached :
  world_run show mounted display_only = Some without_raw.
Proof. reflexivity. Qed.

Example raced_reached :
  world_run show mounted toggled_on_and_off = Some raced.
Proof. reflexivity. Qed.


(** C10 fails: verify mode is entered and left before the camera answers,
    so that the answer starts a loop; verify mode is entered again and
    this time the acquisition fails: verify mode is shown as active while
    the loop flag is set and a detection call is in flight. *)
Lemma failed_toggle_counterexample :
  (world_run show mounted toggled_on_and_off = Some raced
   /\ verificationMode (st (component raced)) = false
   /\ exists w,
        world_run show raced
          [Click ToggleVerification;
           Settle 2 (Rejected "camera unavailable")]
        = Some w
        /\ verificationMode (st (component w)) = true
        /\ isLoopRunning (st (component w)) = true
        /\ in_flight (component w) = 1)
  /\ ~ failed_toggle_leaves_idle show.
Proof.
  split.
  - do 2 (split; [reflexivity|]).
    exists {| component :=
                {| st := set_verificationMode true (st (component raced));
                   pending := pending (component raced);
                   frames := 0;
                   trace := trace (component raced)
                            ++ [Invoke open_camera;
                                ElMessage error_level "camera unavailable";
                                console_error "camera unavailable"] |};
              handles := 0 |}.
    repeat split.
  - intro Hclaim.
    destruct (Hclaim (component raced) _ "camera unavailable"
                eq_refl eq_refl) as (_ & Hidle & _).
    discriminate Hidle.
Qed.

(** C7.  The failing session: a capture is confirmed while its last
    detection call is still out, and verify mode is entered.  The new loop
    sends its call beside the old one, so two detection calls are in
    flight; when the old call returns, its frame replaces both images and
    its tick finds the loop flag set again, so the stopped loop resumes
    and two loops go on sending [verify_face]. *)
Lemma stale_loop_resumes :
  world_run show mounted restart_with_call_out = Some two_calls_out
  /\ in_flight (component two_calls_out) = 2
  /\ handles two_calls_out = 1
  /\ world_run show two_calls_out stale_call_returns = Some two_loops
  /\ rawImageForSystem (st (component two_loops)) = "data:,late"
  /\ isLoopRunning (st (component two_loops)) = true
  /\ in_flight (component two_loops) = 2
  /\ live_loops (component two_loops) = 2.
Proof. repeat split. Qed.


End Revisited.
